(** * Lotofacil analyser: a shallow embedding of [association.py] and
      [transform.py], and the properties of its encoder, scorer and
      pattern statistics.

    Conventions of the embedding.
    - A pandas table of draws is a list of rows, each a list of integers.
      The embedding covers the tables pandas reads as 64-bit integers
      ([Spec.int64_table]: every row has the same number of fields, every
      value lies in [-2^63, 2^63)); on them [row.astype(int)] is the identity
      and [row - 1] can only wrap at -2^63, a value that numpy's index check
      and the embedding both refuse.  A statement that does not bound the
      values of the table by itself assumes such a table.
    - The one-hot matrix is a list of rows of 25 cells holding 0 or 1.
    - In [Association] floating-point scores are idealised as exact
      rationals ([Q]); a frequency [sum / len] is only meaningful for a table
      with at least one row (pandas yields NaN on an empty one), so every
      statement about exact scores assumes a non-empty matrix.  The value of
      a score is stated in this idealisation.  The order of the scores
      depends on their rounding: [Scoring] is the scorer over the arithmetic
      of its scores, binary64 floats among them, and the ranking is stated
      there.
    - A Python exception is the [Err] outcome of the error monad below.
    - [pandas.read_csv] and mlxtend's [apriori] / [association_rules] are not
      part of the repository: they are parameters of the development. *)

From Stdlib Require Import String.
From Stdlib Require Import ZArith QArith List Bool Lia Lqa.
From Stdlib Require Import Permutation Sorted.
From Stdlib Require PrimFloat Uint63.
Import ListNotations.

Local Open Scope Z_scope.

(** ** Exceptions and the error monad *)

Module Py.

(** Exceptions raised by Python, numpy, pandas or mlxtend. *)
Inductive builtin_exception : Type :=
| IndexError
| KeyError
| ValueError
| TypeError
| AttributeError
| FileNotFoundError.

(** The error kinds the specification names.  No statement of the source
    raises any of them; they are part of the exception type so that the
    specification's error-handling sentences can be stated. *)
Inductive spec_error : Type :=
| ValidationError
| InsufficientDataError
| ConfigurationError.

Inductive exn : Type :=
| Raised (e : builtin_exception)
| SpecError (e : spec_error).

Inductive result (E A : Type) : Type :=
| Ok (a : A)
| Err (e : E).

Arguments Ok {E A} a.
Arguments Err {E A} e.

Definition bind {E A B} (c : result E A) (k : A -> result E B) : result E B :=
  match c with
  | Ok a => k a
  | Err e => Err e
  end.

(** An exception of a library call, seen from the calling method. *)
Definition from_library {A} (c : result builtin_exception A) : result exn A :=
  match c with
  | Ok a => Ok a
  | Err e => Err (Raised e)
  end.

Fixpoint mapM {E A B} (f : A -> result E B) (l : list A) : result E (list B) :=
  match l with
  | [] => Ok []
  | a :: rest =>
      bind (f a) (fun b => bind (mapM f rest) (fun bs => Ok (b :: bs)))
  end.

(** A [for] loop threading an accumulator, left to right, stopping at the
    first exception. *)
Fixpoint foldM {E A B} (f : A -> B -> result E A) (a : A) (l : list B)
  : result E A :=
  match l with
  | [] => Ok a
  | b :: rest => bind (f a b) (fun a' => foldM f a' rest)
  end.

Definition is_ok {E A} (c : result E A) : bool :=
  match c with Ok _ => true | Err _ => false end.

End Py.

Import Py.

Notation "x <- c ;; k" := (bind c (fun x => k))
  (at level 61, c at next level, right associativity).

(** ** numpy: a row of cells and integer-array indexing *)

Module Numpy.

(** [a[j] = v] on one row; the index is in range when this is called. *)
Fixpoint set_cell (j : nat) (v : Z) (cells : list Z) : list Z :=
  match cells, j with
  | [], _ => []
  | _ :: rest, O => v :: rest
  | c :: rest, S j' => c :: set_cell j' v rest
  end.

(** Index resolution along an axis of size [size]: a negative index counts
    from the end, anything outside [-size, size) raises IndexError. *)
Definition normalize_index (size : Z) (i : Z) : result exn Z :=
  if (0 <=? i) && (i <? size) then Ok i
  else if (- size <=? i) && (i <? 0) then Ok (i + size)
  else Err (Raised IndexError).

(** [row[indices] = v] with an integer array as index: all indices are
    resolved first, then every addressed cell receives [v]. *)
Definition assign_cells (cells : list Z) (indices : list Z) (v : Z)
  : result exn (list Z) :=
  js <- mapM (normalize_index (Z.of_nat (length cells))) indices ;;
  Ok (fold_left (fun acc j => set_cell (Z.to_nat j) v acc) js cells).

(** The 64-bit integer an integer is after a wrap-around: numpy's int64
    arithmetic overflows silently. *)
Definition wrap_int64 (v : Z) : Z := (v + 2 ^ 63) mod 2 ^ 64 - 2 ^ 63.

(** [np.zeros((n, m))]. *)
Definition zeros (n m : nat) : list (list Z) := repeat (repeat 0 m) n.

(** Replace row [idx] of a matrix. *)
Fixpoint set_row (idx : nat) (cells : list Z) (matrix : list (list Z))
  : list (list Z) :=
  match matrix, idx with
  | [], _ => []
  | _ :: rest, O => cells :: rest
  | r :: rest, S idx' => r :: set_row idx' cells rest
  end.

End Numpy.

Import Numpy.

(** ** The data model *)

(** The raw table of draws ([self.df]). *)
Definition DataFrame := list (list Z).

(** The one-hot table ([self.onehot_df]); column [j] (0-based) carries the
    label [num_ (j+1)]. *)
Definition Matrix := list (list Z).

(** A column label [f'num_{i+1}']. *)
Inductive label : Type := num_ (n : Z).

(** A row of mlxtend's frequent-itemset table. *)
Record Itemset : Type := mkItemset {
  itemset_support : Q;
  itemsets : list label
}.

(** A row of mlxtend's rule table (the columns the analyser reads). *)
Record Rule : Type := mkRule {
  antecedents : list label;
  consequents : list label;
  support : Q;
  confidence : Q
}.

(** ** transform.py and the encoder loop shared with association.py *)

Module Transform.

(** The loop [for idx, row in ...: onehot_matrix[idx, row - 1] = 1]. *)
Fixpoint encode_rows (idx : nat) (rows : list (list Z)) (onehot_matrix : Matrix)
  : result exn Matrix :=
  match rows with
  | [] => Ok onehot_matrix
  | row :: rest =>
      let numeros_sorteados := map (fun x => x - 1) row in
      cells <- assign_cells (nth idx onehot_matrix []) numeros_sorteados 1 ;;
      encode_rows (S idx) rest (set_row idx cells onehot_matrix)
  end.

Section WithPandas.

Variable read_csv : string -> result builtin_exception DataFrame.

Definition create_lotofacil_onehot (csv_file : string) : result exn Matrix :=
  df <- from_library (read_csv csv_file) ;;
  let n_sorteios := length df in
  let onehot_matrix := zeros n_sorteios 25 in
  encode_rows 0 df onehot_matrix.

End WithPandas.

End Transform.

(** ** association.py: class LotofacilAnalyzer *)

Module Association.

(** The attributes of the analyser; [None] until the method that fills the
    attribute has run. *)
Record LotofacilAnalyzer : Type := mkAnalyzer {
  csv_file : string;
  min_support : Q;
  min_confidence : Q;
  df : option DataFrame;
  onehot_df : option Matrix;
  frequent_itemsets : option (list Itemset);
  rules : option (list Rule);
  recommended_numbers : option (list (Z * Q))
}.

(** [__init__(self, csv_file, min_support=0.3, min_confidence=0.5)]: the
    three arguments are stored, nothing is checked, nothing is read. *)
Definition __init__ (csv_file : string) (min_support min_confidence : Q)
  : result exn LotofacilAnalyzer :=
  Ok {| csv_file := csv_file;
        min_support := min_support;
        min_confidence := min_confidence;
        df := None;
        onehot_df := None;
        frequent_itemsets := None;
        rules := None;
        recommended_numbers := None |}.

Definition default_min_support : Q := 3 # 10.
Definition default_min_confidence : Q := 5 # 10.

(** *** Scoring helpers *)

(** [DataFrame.sum()] for column [j]. *)
Definition column_sum (m : Matrix) (j : nat) : Z :=
  fold_right (fun row acc => nth j row 0 + acc) 0 m.

(** [m.sum() / len(m)], read at column [j]. *)
Definition frequency (m : Matrix) (j : nat) : Q :=
  (inject_Z (column_sum m j) / inject_Z (Z.of_nat (length m)))%Q.

(** [m.iloc[-n:]]: the last [n] rows, all of them when there are fewer. *)
Definition iloc_last (n : nat) (m : Matrix) : Matrix :=
  skipn (length m - n) m.

(** The dict [number_scores], in insertion order. *)
Definition dict := list (Z * Q).

(** [d[k] += v]; KeyError when [k] is not a key. *)
Fixpoint dict_add (d : dict) (k : Z) (v : Q) : result exn dict :=
  match d with
  | [] => Err (Raised KeyError)
  | (k', s) :: rest =>
      if k' =? k then Ok ((k', (s + v)%Q) :: rest)
      else rest' <- dict_add rest k v ;; Ok ((k', s) :: rest')
  end.

(** [int(str(item).split('_')[1]) for item in fs]. *)
Definition extract_numbers_from_frozenset (fs : list label) : list Z :=
  map (fun item => match item with num_ n => n end) fs.

(** [sorted(items, key=lambda x: x[1], reverse=True)].  Python's sort is
    stable, also with [reverse=True]: items with equal keys keep their
    original relative order.  On keys that are totally ordered every stable
    sort returns the same list; it is written here as an insertion sort. *)
Fixpoint insert_desc (x : Z * Q) (l : list (Z * Q)) : list (Z * Q) :=
  match l with
  | [] => [x]
  | y :: rest =>
      if Qle_bool (snd y) (snd x) then x :: y :: rest
      else y :: insert_desc x rest
  end.

Definition sorted_reverse (items : list (Z * Q)) : list (Z * Q) :=
  fold_right insert_desc [] items.

(** The value of [number_scores] when the final sort is reached. *)
Definition compute_number_scores (onehot : Matrix) (rule_table : list Rule)
  : result exn dict :=
  let numero_frequency := frequency onehot in
  let number_scores : dict :=
    map (fun i => (Z.of_nat i + 1, 0%Q)) (seq 0 25) in
  (* 1. individual frequency, weight 30% *)
  number_scores <-
    foldM (fun d i => dict_add d (Z.of_nat i + 1)
                        (numero_frequency i * (3 # 10))%Q)
          number_scores (seq 0 25) ;;
  (* 2. association rules, weight 40% *)
  number_scores <-
    foldM (fun d rule =>
             let ant_nums := extract_numbers_from_frozenset (antecedents rule) in
             let cons_nums := extract_numbers_from_frozenset (consequents rule) in
             let score := (confidence rule * support rule * (4 # 10))%Q in
             foldM (fun d' num => dict_add d' num score) d
                   (ant_nums ++ cons_nums))
          number_scores rule_table ;;
  (* 3. recent trend: the last 10 games, weight 30% *)
  let recent_games := iloc_last 10 onehot in
  let recent_freq := frequency recent_games in
  foldM (fun d i => dict_add d (Z.of_nat i + 1) (recent_freq i * (3 # 10))%Q)
        number_scores (seq 0 25).

(** *** Pattern statistics *)

Record PatternResults : Type := mkResults {
  pares_impares : list (Z * Z);
  soma_total : list Z;
  quadrantes : list (list Z)
}.

(** [quadrantes[i] += 1]. *)
Definition bump (i : nat) (quadrantes : list Z) : list Z :=
  set_cell i (nth i quadrantes 0 + 1) quadrantes.

Definition row_quadrantes (numeros : list Z) : list Z :=
  fold_left (fun quadrantes n =>
               if n <=? 6 then bump 0 quadrantes
               else if n <=? 12 then bump 1 quadrantes
               else if n <=? 18 then bump 2 quadrantes
               else bump 3 quadrantes)
            numeros (repeat 0 4).

Definition row_pares (numeros : list Z) : Z :=
  fold_right Z.add 0 (map (fun _ => 1) (filter (fun n => n mod 2 =? 0) numeros)).

(** [sum(numeros)] over numpy's 64-bit integers, added from the left. *)
Definition row_soma (numeros : list Z) : Z :=
  fold_left (fun soma n => wrap_int64 (soma + n)) numeros 0.

Definition analyze_rows (rows : DataFrame) : PatternResults :=
  fold_left (fun results numeros =>
               let pares := row_pares numeros in
               {| pares_impares := pares_impares results ++ [(pares, 15 - pares)];
                  soma_total := soma_total results ++ [row_soma numeros];
                  quadrantes := quadrantes results ++ [row_quadrantes numeros] |})
            rows
            {| pares_impares := []; soma_total := []; quadrantes := [] |}.

(** *** The methods *)

Section WithLibraries.

Variable read_csv : string -> result builtin_exception DataFrame.
Variable apriori :
  Matrix -> Q -> nat -> result builtin_exception (list Itemset).
Variable association_rules :
  list Itemset -> Q -> result builtin_exception (list Rule).

Definition load_and_prepare_data (self : LotofacilAnalyzer)
  : result exn LotofacilAnalyzer :=
  df <- from_library (read_csv (csv_file self)) ;;
  let n_sorteios := length df in
  let onehot_matrix := zeros n_sorteios 25 in
  onehot_matrix <- Transform.encode_rows 0 df onehot_matrix ;;
  Ok {| csv_file := csv_file self;
        min_support := min_support self;
        min_confidence := min_confidence self;
        df := Some df;
        onehot_df := Some onehot_matrix;
        frequent_itemsets := frequent_itemsets self;
        rules := rules self;
        recommended_numbers := recommended_numbers self |}.

(** [apriori(self.onehot_df, min_support=self.min_support, max_len=6)] then
    [association_rules(..., metric="confidence",
    min_threshold=self.min_confidence)].  Before [load_and_prepare_data] the
    table is [None] and the library call fails on it. *)
Definition analyze_patterns (self : LotofacilAnalyzer)
  : result exn LotofacilAnalyzer :=
  match onehot_df self with
  | None => Err (Raised AttributeError)
  | Some onehot =>
      itemsets <- from_library (apriori onehot (min_support self) 6%nat) ;;
      rule_table <-
        from_library (association_rules itemsets (min_confidence self)) ;;
      Ok {| csv_file := csv_file self;
            min_support := min_support self;
            min_confidence := min_confidence self;
            df := df self;
            onehot_df := onehot_df self;
            frequent_itemsets := Some itemsets;
            rules := Some rule_table;
            recommended_numbers := recommended_numbers self |}
  end.

Definition calculate_recommendations (self : LotofacilAnalyzer)
  : result exn LotofacilAnalyzer :=
  match onehot_df self, rules self with
  | Some onehot, Some rule_table =>
      number_scores <- compute_number_scores onehot rule_table ;;
      Ok {| csv_file := csv_file self;
            min_support := min_support self;
            min_confidence := min_confidence self;
            df := df self;
            onehot_df := onehot_df self;
            frequent_itemsets := frequent_itemsets self;
            rules := rules self;
            recommended_numbers :=
              Some (firstn 15 (sorted_reverse number_scores)) |}
  | _, _ => Err (Raised AttributeError)
  end.

Definition analyze_number_patterns (self : LotofacilAnalyzer)
  : result exn PatternResults :=
  match df self with
  | None => Err (Raised AttributeError)
  | Some rows => Ok (analyze_rows rows)
  end.

(** [main], up to the report: construct, load, mine, score. *)
Definition run (arquivo_csv : string) (min_support min_confidence : Q)
  : result exn LotofacilAnalyzer :=
  analyzer <- __init__ arquivo_csv min_support min_confidence ;;
  analyzer <- load_and_prepare_data analyzer ;;
  analyzer <- analyze_patterns analyzer ;;
  calculate_recommendations analyzer.

End WithLibraries.

End Association.

(** ** association.py: the scorer over the arithmetic of its scores *)

Module Scoring.

(** The numbers the scorer computes with and the operations it applies to
    them: the conversion of an integer, [+], [*], [/], the literals 0.3 and
    0.4, and the comparison [<] the final sort uses. *)
Record arithmetic : Type := mkArithmetic {
  number : Type;
  of_int : Z -> number;
  add : number -> number -> number;
  mul : number -> number -> number;
  div : number -> number -> number;
  three_tenths : number;
  four_tenths : number;
  lt : number -> number -> bool
}.

(** Exact rationals: the arithmetic of [Association.compute_number_scores]. *)
Definition exact : arithmetic :=
  {| number := Q;
     of_int := inject_Z;
     add := Qplus;
     mul := Qmult;
     div := Qdiv;
     three_tenths := 3 # 10;
     four_tenths := 4 # 10;
     lt := fun a b => negb (Qle_bool b a) |}.

(** IEEE 754 binary64, round to nearest even: Python's float and numpy's
    float64.  The literals are the floats nearest to 0.3 and 0.4; [of_int] is
    meant for the counts and lengths the scorer converts, which are far
    below 2^63. *)
Module Binary64.

Import PrimFloat.

Definition literal_0_3 : float := 0x1.3333333333333p-2%float.
Definition literal_0_4 : float := 0x1.999999999999ap-2%float.

End Binary64.

Definition binary64 : arithmetic :=
  {| number := PrimFloat.float;
     of_int := fun z => PrimFloat.of_uint63 (Uint63.of_Z z);
     add := PrimFloat.add;
     mul := PrimFloat.mul;
     div := PrimFloat.div;
     three_tenths := Binary64.literal_0_3;
     four_tenths := Binary64.literal_0_4;
     lt := PrimFloat.ltb |}.

(** A row of the rule table, with support and confidence in the arithmetic. *)
Record Rule (A : arithmetic) : Type := mkRule {
  antecedents : list label;
  consequents : list label;
  support : number A;
  confidence : number A
}.

Arguments mkRule {A} _ _ _ _.
Arguments antecedents {A} _.
Arguments consequents {A} _.
Arguments support {A} _.
Arguments confidence {A} _.

Section WithArithmetic.

Variable A : arithmetic.

(** [m.sum() / len(m)], read at column [j]: the cells are 0.0 or 1.0, their
    sum is the float of the count. *)
Definition frequency (m : Matrix) (j : nat) : number A :=
  div A (of_int A (Association.column_sum m j))
        (of_int A (Z.of_nat (length m))).

Definition dict : Type := list (Z * number A).

(** [d[k] += v]; KeyError when [k] is not a key. *)
Fixpoint dict_add (d : dict) (k : Z) (v : number A) : result exn dict :=
  match d with
  | [] => Err (Raised KeyError)
  | (k', s) :: rest =>
      if k' =? k then Ok ((k', add A s v) :: rest)
      else rest' <- dict_add rest k v ;; Ok ((k', s) :: rest')
  end.

(** [sorted(items, key=lambda x: x[1], reverse=True)], which compares keys
    with [<] only and keeps items that it does not tell apart in their
    original order.  Where [<] orders the keys (no NaN among them) every such
    sort returns the same list; it is written here as an insertion sort. *)
Fixpoint insert_desc (x : Z * number A) (l : list (Z * number A))
  : list (Z * number A) :=
  match l with
  | [] => [x]
  | y :: rest =>
      if lt A (snd x) (snd y) then y :: insert_desc x rest
      else x :: y :: rest
  end.

Definition sorted_reverse (items : list (Z * number A))
  : list (Z * number A) :=
  fold_right insert_desc [] items.

(** The value of [number_scores] when the final sort is reached. *)
Definition compute_number_scores (onehot : Matrix) (rule_table : list (Rule A))
  : result exn dict :=
  let numero_frequency := frequency onehot in
  let number_scores : dict :=
    map (fun i => (Z.of_nat i + 1, of_int A 0)) (seq 0 25) in
  (* 1. individual frequency, weight 30% *)
  number_scores <-
    foldM (fun d i => dict_add d (Z.of_nat i + 1)
                        (mul A (numero_frequency i) (three_tenths A)))
          number_scores (seq 0 25) ;;
  (* 2. association rules, weight 40% *)
  number_scores <-
    foldM (fun d rule =>
             let ant_nums :=
               Association.extract_numbers_from_frozenset (antecedents rule) in
             let cons_nums :=
               Association.extract_numbers_from_frozenset (consequents rule) in
             let score :=
               mul A (mul A (confidence rule) (support rule)) (four_tenths A) in
             foldM (fun d' num => dict_add d' num score) d
                   (ant_nums ++ cons_nums))
          number_scores rule_table ;;
  (* 3. recent trend: the last 10 games, weight 30% *)
  let recent_games := Association.iloc_last 10 onehot in
  let recent_freq := frequency recent_games in
  foldM (fun d i => dict_add d (Z.of_nat i + 1)
                      (mul A (recent_freq i) (three_tenths A)))
        number_scores (seq 0 25).

(** The body of [calculate_recommendations] for the table and the rules of
    the analyser: the value it stores in [self.recommended_numbers]. *)
Definition calculate_recommendations (onehot : Matrix)
  (rule_table : list (Rule A)) : result exn (list (Z * number A)) :=
  number_scores <- compute_number_scores onehot rule_table ;;
  Ok (firstn 15 (sorted_reverse number_scores)).

End WithArithmetic.

End Scoring.

(** ** association.py: the first sections of the report *)

Module Report.

Import Association.

(** [sorted(l)] on integers, ascending. *)
Fixpoint insert_asc (x : Z) (l : list Z) : list Z :=
  match l with
  | [] => [x]
  | y :: rest => if x <=? y then x :: y :: rest else y :: insert_asc x rest
  end.

Definition sorted (l : list Z) : list Z := fold_right insert_asc [] l.

(** [Counter(items)]: one entry per distinct item, in the order of first
    occurrence, with the number of its occurrences. *)
Definition split_eqb (a b : Z * Z) : bool :=
  (fst a =? fst b) && (snd a =? snd b).

Fixpoint counter_update (counts : list ((Z * Z) * Z)) (item : Z * Z)
  : list ((Z * Z) * Z) :=
  match counts with
  | [] => [(item, 1)]
  | (item', n) :: rest =>
      if split_eqb item' item then (item', n + 1) :: rest
      else (item', n) :: counter_update rest item
  end.

Definition Counter (items : list (Z * Z)) : list ((Z * Z) * Z) :=
  fold_left counter_update items [].

(** [max(items, key=lambda x: x[1])]: the first item of maximal key;
    ValueError on an empty sequence. *)
Definition max_by_count (items : list ((Z * Z) * Z))
  : result exn ((Z * Z) * Z) :=
  match items with
  | [] => Err (Raised ValueError)
  | first :: rest =>
      Ok (fold_left (fun best x => if snd best <? snd x then x else best)
                    rest first)
  end.

(** What [print_comprehensive_analysis] computes for its sections 1 and 2.1:
    the number of draws, the recommended numbers in ascending order and the
    most common parity split with its number of occurrences.  The texts
    printed and the later sections (numpy's mean and standard deviation,
    pandas' sort of the rules) are not part of the embedding. *)
Record ReportHead : Type := mkHead {
  total_de_jogos : nat;
  numbers_only : list Z;
  most_common_par_impar : (Z * Z) * Z
}.

Definition comprehensive_analysis_head (self : LotofacilAnalyzer)
  : result exn ReportHead :=
  match df self with
  | None => Err (Raised TypeError)
  | Some rows =>
      match recommended_numbers self with
      | None => Err (Raised TypeError)
      | Some recommended =>
          let numbers_only := sorted (map fst recommended) in
          patterns <- analyze_number_patterns self ;;
          let pares_count := Counter (pares_impares patterns) in
          most_common_par_impar <- max_by_count pares_count ;;
          Ok {| total_de_jogos := length rows;
                numbers_only := numbers_only;
                most_common_par_impar := most_common_par_impar |}
      end
  end.

End Report.

(** ** Notions the statements are phrased in *)

Module Spec.

Import Association.

(** A draw as the data model has it: 15 distinct numbers in 1..25. *)
Fixpoint nodupb (l : list Z) : bool :=
  match l with
  | [] => true
  | x :: rest => negb (existsb (Z.eqb x) rest) && nodupb rest
  end.

Definition in_range (v : Z) : bool := (1 <=? v) && (v <=? 25).

Definition valid_draw (row : list Z) : bool :=
  (length row =? 15)%nat && nodupb row && forallb in_range row.

(** The values numpy's indexing accepts once 1 is subtracted. *)
Definition indexable (v : Z) : bool := (-24 <=? v) && (v <=? 25).

Definition history_indexable (history : DataFrame) : bool :=
  forallb (forallb indexable) history.

(** A table of 64-bit integers, as pandas holds a file of integers: every
    row has as many fields as the first one (a short line would be padded
    with NaN, which is no integer), and every value is in [-2^63, 2^63). *)
Definition int64 (v : Z) : bool := (- 2 ^ 63 <=? v) && (v <? 2 ^ 63).

Definition int64_table (t : DataFrame) : bool :=
  forallb (fun row => (length row =? length (hd [] t))%nat
                      && forallb int64 row) t.

(** [sum(numeros)] adds from the left; no partial sum leaves the 64-bit
    range, so that the sum numpy computes is the sum of the integers. *)
Fixpoint sum_fits_int64 (acc : Z) (numeros : list Z) : bool :=
  match numeros with
  | [] => true
  | n :: rest => int64 (acc + n) && sum_fits_int64 (acc + n) rest
  end.

(** An occurrence matrix: rows of 25 cells, each 0 or 1. *)
Definition is_onehot (m : Matrix) : bool :=
  forallb (fun row => (length row =? 25)%nat
                      && forallb (fun c => (c =? 0) || (c =? 1)) row) m.

(** Number [n] appears in a row of the matrix. *)
Definition appears (n : Z) (row : list Z) : bool :=
  nth (Z.to_nat (n - 1)) row 0 =? 1.

(** Fraction of the rows in which [n] appears. *)
Definition fraction_of_appearances (m : Matrix) (n : Z) : Q :=
  (inject_Z (Z.of_nat (length (filter (appears n) m)))
   / inject_Z (Z.of_nat (length m)))%Q.

(** The last [w] rows, the whole history when it has fewer. *)
Definition last_rows (w : nat) (m : Matrix) : Matrix :=
  if (length m <=? w)%nat then m else skipn (length m - w) m.

(** The window the scorer uses. *)
Definition recent_window : nat := 10.

(** Two labels name the same column. *)
Definition label_eqb (a b : label) : bool :=
  match a, b with num_ x, num_ y => x =? y end.

(** The label of number [n] is one of a set of labels. *)
Definition holds (n : Z) (fs : list label) : bool :=
  existsb (label_eqb (num_ n)) fs.

(** The labels of the 25 columns of the occurrence matrix. *)
Definition column_labels : list label :=
  map (fun i => num_ (Z.of_nat i + 1)) (seq 0 25).

Definition in_columns (fs : list label) : bool :=
  forallb (fun l => existsb (label_eqb l) column_labels) fs.

Fixpoint distinct (fs : list label) : bool :=
  match fs with
  | [] => true
  | l :: rest => negb (existsb (label_eqb l) rest) && distinct rest
  end.

(** The rule holds the label of [n], in its antecedent or its consequent. *)
Definition mentions (n : Z) (r : Rule) : bool :=
  holds n (antecedents r) || holds n (consequents r).

(** Sum of confidence x support over the rules that mention [n]. *)
Definition rule_strength (rule_table : list Rule) (n : Z) : Q :=
  fold_right (fun r acc => (confidence r * support r + acc)%Q) 0%Q
             (filter (mentions n) rule_table).

(** The labels of a rule are among the 25 columns num_1..num_25. *)
Definition rule_in_columns (r : Rule) : bool :=
  in_columns (antecedents r ++ consequents r).

(** A rule as mlxtend produces it from the 25 columns: antecedent and
    consequent are disjoint duplicate-free sets of labels num_1..num_25. *)
Definition rule_ok (r : Rule) : bool :=
  rule_in_columns r && distinct (antecedents r ++ consequents r).

(** The final score of the specification, for a recent window of [w] rows. *)
Definition final_score_with (w : nat) (m : Matrix) (rule_table : list Rule)
  (n : Z) : Q :=
  ((3 # 10) * fraction_of_appearances m n
   + (4 # 10) * rule_strength rule_table n
   + (3 # 10) * fraction_of_appearances (last_rows w m) n)%Q.

Definition final_score : Matrix -> list Rule -> Z -> Q :=
  final_score_with recent_window.


(** The same notions over the arithmetic of the scores. *)
Section OverArithmetic.

Variable A : Scoring.arithmetic.

Definition fraction_in (m : Matrix) (n : Z) : Scoring.number A :=
  Scoring.div A
    (Scoring.of_int A (Z.of_nat (length (filter (appears n) m))))
    (Scoring.of_int A (Z.of_nat (length m))).

Definition mentions_in (n : Z) (r : Scoring.Rule A) : bool :=
  holds n (Scoring.antecedents r) || holds n (Scoring.consequents r).

Definition rule_ok_in (r : Scoring.Rule A) : bool :=
  in_columns (Scoring.antecedents r ++ Scoring.consequents r)
  && distinct (Scoring.antecedents r ++ Scoring.consequents r).

(** The final score of [n] as the arithmetic gives it: 0.3 x base frequency,
    then confidence x support x 0.4 for each rule that mentions [n], in the
    order of the rule table, then 0.3 x recent frequency, each added to the
    sum so far. *)
Definition final_score_in (m : Matrix) (rule_table : list (Scoring.Rule A))
  (n : Z) : Scoring.number A :=
  let base :=
    Scoring.add A (Scoring.of_int A 0)
      (Scoring.mul A (fraction_in m n) (Scoring.three_tenths A)) in
  let with_rules :=
    fold_left (fun s r =>
                 Scoring.add A s
                   (Scoring.mul A
                      (Scoring.mul A (Scoring.confidence r) (Scoring.support r))
                      (Scoring.four_tenths A)))
              (filter (mentions_in n) rule_table) base in
  Scoring.add A with_rules
    (Scoring.mul A (fraction_in (last_rows recent_window m) n)
                   (Scoring.three_tenths A)).

(** [x] is ranked before [y]: its score is higher, or [<] does not tell the
    two scores apart and its number is smaller. *)
Definition ranked_before_in (x y : Z * Scoring.number A) : Prop :=
  Scoring.lt A (snd y) (snd x) = true
  \/ (Scoring.lt A (snd x) (snd y) = false
      /\ Scoring.lt A (snd y) (snd x) = false
      /\ fst x < fst y).

(** [<] orders the given scores: of two scores at most one is below the
    other, and a score below neither of two others is not between them.
    This holds of floats among which there is no NaN. *)
Definition ordered_by_lt (scores : list (Scoring.number A)) : bool :=
  forallb (fun a =>
    forallb (fun b =>
      (negb (Scoring.lt A a b) || negb (Scoring.lt A b a))
      && forallb (fun c =>
           Scoring.lt A a b || Scoring.lt A b c || negb (Scoring.lt A a c))
         scores) scores) scores.

End OverArithmetic.

(** Support of a set of labels in the matrix, and a rule whose support and
    confidence are the ones the matrix gives. *)
Definition label_appears (l : label) (row : list Z) : bool :=
  match l with num_ n => appears n row end.

Definition itemset_support_in (m : Matrix) (items : list label) : Q :=
  (inject_Z (Z.of_nat (length (filter (fun row =>
       forallb (fun l => label_appears l row) items) m)))
   / inject_Z (Z.of_nat (length m)))%Q.

Definition rule_holds_in (m : Matrix) (r : Rule) : bool :=
  Qeq_bool (support r)
           (itemset_support_in m (antecedents r ++ consequents r))
  && Qeq_bool (confidence r * itemset_support_in m (antecedents r))
              (itemset_support_in m (antecedents r ++ consequents r)).

(** The quadrant of a number: 0 for 1..6, 1 for 7..12, 2 for 13..18, 3 for
    19..25. *)
Definition in_quadrant (q : nat) (n : Z) : bool :=
  match q with
  | 0%nat => (1 <=? n) && (n <=? 6)
  | 1%nat => (7 <=? n) && (n <=? 12)
  | 2%nat => (13 <=? n) && (n <=? 18)
  | _ => (19 <=? n) && (n <=? 25)
  end.

Definition count_in_quadrant (q : nat) (numeros : list Z) : Z :=
  Z.of_nat (length (filter (in_quadrant q) numeros)).

End Spec.

(** ** Definitions used by the proofs *)

Module Aux.

Import Association.

(** One iteration of the encoder loop on a fresh row of zeros. *)
Definition encode_row (row : list Z) : result exn (list Z) :=
  assign_cells (repeat 0 25) (map (fun x => x - 1) row) 1.

Definition keys : list Z := map (fun i => Z.of_nat i + 1) (seq 0 25).

(** The dict whose value at key [k] is [f k]. *)
Definition table (ks : list Z) (f : Z -> Q) : dict := map (fun k => (k, f k)) ks.

(** The effect of [d[k] += v] on the function a dict tabulates. *)
Definition add_at (k : Z) (v : Q) (f : Z -> Q) : Z -> Q :=
  fun n => if n =? k then (f n + v)%Q else f n.

Definition accumulate (f : Z -> Q) (kvs : list (Z * Q)) : Z -> Q :=
  fold_left (fun g kv => add_at (fst kv) (snd kv) g) kvs f.

(** The numbers a rule adds its score to: [ant_nums + cons_nums]. *)
Definition rule_numbers (r : Rule) : list Z :=
  extract_numbers_from_frozenset (antecedents r)
  ++ extract_numbers_from_frozenset (consequents r).

Definition rule_updates (r : Rule) : list (Z * Q) :=
  map (fun num => (num, (confidence r * support r * (4 # 10))%Q))
      (rule_numbers r).

Definition frequency_updates (m : Matrix) : list (Z * Q) :=
  map (fun i => (Z.of_nat i + 1, (frequency m i * (3 # 10))%Q)) (seq 0 25).

(** The function tabulated by [number_scores] at the final sort. *)
Definition score_fun (m : Matrix) (rule_table : list Rule) : Z -> Q :=
  accumulate
    (fold_left (fun g r => accumulate g (rule_updates r)) rule_table
       (accumulate (fun _ => 0%Q) (frequency_updates m)))
    (frequency_updates (iloc_last 10 m)).

(** The same, over the arithmetic of the scores. *)
Section OverArithmetic.

Variable A : Scoring.arithmetic.

Definition table_in (ks : list Z) (f : Z -> Scoring.number A)
  : Scoring.dict A :=
  map (fun k => (k, f k)) ks.

Definition add_at_in (k : Z) (v : Scoring.number A)
  (f : Z -> Scoring.number A) : Z -> Scoring.number A :=
  fun n => if n =? k then Scoring.add A (f n) v else f n.

Definition accumulate_in (f : Z -> Scoring.number A)
  (kvs : list (Z * Scoring.number A)) : Z -> Scoring.number A :=
  fold_left (fun g kv => add_at_in (fst kv) (snd kv) g) kvs f.

Definition rule_score_in (r : Scoring.Rule A) : Scoring.number A :=
  Scoring.mul A (Scoring.mul A (Scoring.confidence r) (Scoring.support r))
                (Scoring.four_tenths A).

Definition rule_numbers_in (r : Scoring.Rule A) : list Z :=
  extract_numbers_from_frozenset (Scoring.antecedents r)
  ++ extract_numbers_from_frozenset (Scoring.consequents r).

Definition rule_updates_in (r : Scoring.Rule A)
  : list (Z * Scoring.number A) :=
  map (fun num => (num, rule_score_in r)) (rule_numbers_in r).

Definition frequency_updates_in (m : Matrix) : list (Z * Scoring.number A) :=
  map (fun i => (Z.of_nat i + 1,
                 Scoring.mul A (Scoring.frequency A m i)
                               (Scoring.three_tenths A)))
      (seq 0 25).

Definition score_fun_in (m : Matrix) (rule_table : list (Scoring.Rule A))
  : Z -> Scoring.number A :=
  accumulate_in
    (fold_left (fun g r => accumulate_in g (rule_updates_in r)) rule_table
       (accumulate_in (fun _ => Scoring.of_int A 0) (frequency_updates_in m)))
    (frequency_updates_in (iloc_last 10 m)).

(** What the updates of a list make of the value [s] held at key [n]. *)
Definition updated_at (n : Z) (kvs : list (Z * Scoring.number A))
  (s : Scoring.number A) : Scoring.number A :=
  fold_left (fun s kv => if n =? fst kv then Scoring.add A s (snd kv) else s)
            kvs s.

End OverArithmetic.

(** What a list of updates adds to key [n] in total. *)
Definition sum_at (n : Z) (kvs : list (Z * Q)) : Q :=
  fold_right (fun kv acc => if n =? fst kv then (snd kv + acc)%Q else acc)
             0%Q kvs.

(** The branch the quadrant loop takes for [n]. *)
Definition quadrant_index (n : Z) : nat :=
  if n <=? 6 then 0 else if n <=? 12 then 1 else if n <=? 18 then 2 else 3.

(** The count a [Counter] holds for an item, 0 when it has none. *)
Fixpoint counter_lookup (counts : list ((Z * Z) * Z)) (k : Z * Z) : Z :=
  match counts with
  | [] => 0
  | (k', n) :: rest =>
      if Report.split_eqb k' k then n else counter_lookup rest k
  end.

(** The number of occurrences of a parity split in a list of them. *)
Definition occurrences (k : Z * Z) (items : list (Z * Z)) : Z :=
  Z.of_nat (length (filter (fun item => Report.split_eqb item k) items)).

(** The parity split of a draw, as the statistics compute it. *)
Definition parity_split (numeros : list Z) : Z * Z :=
  (Z.of_nat (length (filter Z.even numeros)),
   15 - Z.of_nat (length (filter Z.even numeros))).

(** [self.rules = rule_table]. *)
Definition with_rules (self : LotofacilAnalyzer) (rule_table : list Rule)
  : LotofacilAnalyzer :=
  {| csv_file := csv_file self;
     min_support := min_support self;
     min_confidence := min_confidence self;
     df := df self;
     onehot_df := onehot_df self;
     frequent_itemsets := frequent_itemsets self;
     rules := Some rule_table;
     recommended_numbers := recommended_numbers self |}.

(** A rule of the analyser as a rule of the scorer over exact rationals. *)
Definition in_exact (r : Rule) : Scoring.Rule Scoring.exact :=
  @Scoring.mkRule Scoring.exact (antecedents r) (consequents r)
                  (support r) (confidence r).

End Aux.

(** ** Concrete inputs *)

Module Examples.

Import Association.

(** A [read_csv] that finds the given table under every name. *)
Definition csv_holding (history : DataFrame)
  : string -> result builtin_exception DataFrame :=
  fun _ => Ok history.

Definition fresh_analyzer : LotofacilAnalyzer :=
  mkAnalyzer "lotofacil.csv" default_min_support default_min_confidence
             None None None None None.

(** Two valid draws; the numbers 1..7 are in both. *)
Definition two_draws : DataFrame :=
  [ [1; 2; 3; 4; 5; 6; 7; 8; 9; 10; 11; 12; 13; 14; 15];
    [1; 2; 3; 4; 5; 6; 7; 16; 17; 18; 19; 20; 21; 22; 23] ].

Definition two_draws_onehot : Matrix :=
  [ [1; 1; 1; 1; 1; 1; 1; 1; 1; 1; 1; 1; 1; 1; 1; 0; 0; 0; 0; 0; 0; 0; 0; 0; 0];
    [1; 1; 1; 1; 1; 1; 1; 0; 0; 0; 0; 0; 0; 0; 0; 1; 1; 1; 1; 1; 1; 1; 1; 0; 0] ].

(** The rules a -> b and b -> a between two numbers drawn together in one
    of the two draws and absent from the other: support 1/2, confidence 1. *)
Definition both_ways (a b : Z) : list Rule :=
  [ mkRule [num_ a] [num_ b] (1 # 2) 1; mkRule [num_ b] [num_ a] (1 # 2) 1 ].

Definition pair_rules : list Rule :=
  both_ways 8 9 ++ both_ways 10 11 ++ both_ways 12 13 ++ both_ways 14 15
  ++ both_ways 16 17.

Definition scored_two_draws (rule_table : list Rule) : LotofacilAnalyzer :=
  mkAnalyzer "lotofacil.csv" default_min_support default_min_confidence
             (Some two_draws) (Some two_draws_onehot) None (Some rule_table)
             None.

(** One draw of 14 numbers, a table with 14 columns. *)
Definition fourteen_numbers : DataFrame :=
  [ [1; 2; 3; 4; 5; 6; 7; 8; 9; 10; 11; 12; 13; 14] ].

(** A draw holding 0 and a draw holding 26. *)
Definition draw_with_zero : list Z :=
  [0; 2; 3; 4; 5; 6; 7; 8; 9; 10; 11; 12; 13; 14; 15].

Definition draw_with_26 : list Z :=
  [0; 2; 3; 4; 5; 6; 7; 8; 9; 10; 11; 12; 13; 14; 26].

(** A miner that finds no itemset, a rule generator that returns no rule,
    and one that, like mlxtend's, refuses an empty itemset table. *)
Definition apriori_none
  : Matrix -> Q -> nat -> result builtin_exception (list Itemset) :=
  fun _ _ _ => Ok [].

Definition rules_none
  : list Itemset -> Q -> result builtin_exception (list Rule) :=
  fun _ _ => Ok [].

Definition rules_refusing_empty
  : list Itemset -> Q -> result builtin_exception (list Rule) :=
  fun itemsets _ =>
    match itemsets with
    | [] => Err ValueError
    | _ => Ok []
    end.

(** mlxtend at [min_support = 1].  An itemset then is frequent exactly when
    it is in every row, and its support is 1: [apriori] returns every set of
    at most [max_len] of the numbers present in every row (none for a table
    without rows, whose supports are NaN), and every rule between such sets
    has confidence 1, so [association_rules] returns all of them for a
    threshold of at most 1 and none for a larger one; it raises ValueError
    on an empty itemset table. *)
Fixpoint combinations {A} (k : nat) (l : list A) {struct l} : list (list A) :=
  match k, l with
  | O, _ => [[]]
  | S _, [] => []
  | S k', x :: rest => map (cons x) (combinations k' rest) ++ combinations k rest
  end.

Fixpoint splits {A} (l : list A) : list (list A * list A) :=
  match l with
  | [] => [([], [])]
  | x :: rest =>
      flat_map (fun ac => [(x :: fst ac, snd ac); (fst ac, x :: snd ac)])
               (splits rest)
  end.

Definition nonempty {A} (l : list A) : bool :=
  match l with [] => false | _ :: _ => true end.

Definition in_every_row (m : Matrix) : list label :=
  map num_ (filter (fun n => forallb (Spec.appears n) m) Aux.keys).

Definition apriori_at_full_support
  : Matrix -> Q -> nat -> result builtin_exception (list Itemset) :=
  fun m _ max_len =>
    match m with
    | [] => Ok []
    | _ :: _ =>
        Ok (flat_map (fun k => map (mkItemset 1)
                                   (combinations k (in_every_row m)))
                     (seq 1 max_len))
    end.

Definition rules_of_itemset (items : list label) : list Rule :=
  map (fun ac => mkRule (fst ac) (snd ac) 1 1)
      (filter (fun ac => nonempty (fst ac) && nonempty (snd ac)) (splits items)).

Definition association_rules_at_full_support
  : list Itemset -> Q -> result builtin_exception (list Rule) :=
  fun frequent min_threshold =>
    match frequent with
    | [] => Err ValueError
    | _ :: _ =>
        if Qle_bool min_threshold 1
        then Ok (flat_map (fun i => rules_of_itemset (itemsets i)) frequent)
        else Ok []
    end.

(** The itemsets and rules of the two draws at [min_support = 1] and
    [min_confidence = 1]: the sets of at most 6 of the numbers 1..7, and
    every rule between two disjoint parts of such a set. *)
Definition two_draws_itemsets : list Itemset :=
  flat_map (fun k => map (mkItemset 1)
                         (combinations k (map num_ [1; 2; 3; 4; 5; 6; 7])))
           (seq 1 6).

Definition two_draws_rules : list Rule :=
  flat_map (fun i => rules_of_itemset (itemsets i)) two_draws_itemsets.

(** The same rules with support and confidence in binary64: the quotient of
    numerator and denominator, which is the float nearest to the rational
    (the float itself for the supports and confidences 1 and 1/2 used
    here). *)
Definition to_binary64 (q : Q) : PrimFloat.float :=
  PrimFloat.div (PrimFloat.of_uint63 (Uint63.of_Z (Qnum q)))
                (PrimFloat.of_uint63 (Uint63.of_Z (Zpos (Qden q)))).

Definition in_binary64 (r : Rule) : Scoring.Rule Scoring.binary64 :=
  @Scoring.mkRule Scoring.binary64 (antecedents r) (consequents r)
                  (to_binary64 (support r)) (to_binary64 (confidence r)).

Definition two_draws_rules_binary64 : list (Scoring.Rule Scoring.binary64) :=
  map in_binary64 two_draws_rules.

(** Fifteen valid draws: the numbers 3..16 are in every draw, number 1 is
    in the first five draws, number 2 in the sixth and the seventh, and each
    of 17..24 in one of the last eight. *)
Definition fifteen_draws : DataFrame :=
  map (fun last => [3; 4; 5; 6; 7; 8; 9; 10; 11; 12; 13; 14; 15; 16; last])
      [1; 1; 1; 1; 1; 2; 2; 17; 18; 19; 20; 21; 22; 23; 24].


(** A rule over a label that is not a column of the table. *)
Definition rule_on_num_26 : Rule := mkRule [num_ 1] [num_ 26] (1 # 2) 1.

(** An analyser with the two draws loaded and a recommendation set. *)
Definition recommended_example : list (Z * Q) :=
  map (fun n => (n, 7 # 10)) [8; 9; 10; 11; 12; 13; 14; 15; 16; 17]
  ++ map (fun n => (n, 6 # 10)) [1; 2; 3; 4; 5].

Definition reported_two_draws : LotofacilAnalyzer :=
  mkAnalyzer "lotofacil.csv" default_min_support default_min_confidence
             (Some two_draws) (Some two_draws_onehot) None None
             (Some recommended_example).

(** An analyser loaded from a table without rows. *)
Definition loaded_empty : LotofacilAnalyzer :=
  mkAnalyzer "lotofacil.csv" default_min_support default_min_confidence
             (Some []) (Some []) None None None.

(** Eleven rows: number 1 is drawn in the first one only. *)
Definition row_1_to_15 : list Z :=
  [1; 1; 1; 1; 1; 1; 1; 1; 1; 1; 1; 1; 1; 1; 1; 0; 0; 0; 0; 0; 0; 0; 0; 0; 0].

Definition row_2_to_16 : list Z :=
  [0; 1; 1; 1; 1; 1; 1; 1; 1; 1; 1; 1; 1; 1; 1; 1; 0; 0; 0; 0; 0; 0; 0; 0; 0].

Definition eleven_rows : Matrix := row_1_to_15 :: repeat row_2_to_16 10.

End Examples.

(** * Properties *)

Import Association Spec Aux.

(** ** The error monad *)

Lemma mapM_ok_length {E A B} (f : A -> result E B) l bs :
  mapM f l = Ok bs -> length bs = length l.
Proof.
  revert bs; induction l as [|a l IH]; simpl; intros bs H.
  - now inversion H.
  - destruct (f a) as [b|e]; simpl in H; [|discriminate].
    destruct (mapM f l) as [bs'|e]; simpl in H; [|discriminate].
    inversion H; subst; simpl. now rewrite (IH bs').
Qed.

(** ** numpy indexing *)

Lemma normalize_index_25 i :
  normalize_index 25 i
  = if (-25 <=? i) && (i <? 25) then Ok (i mod 25) else Err (Raised IndexError).
Proof.
  unfold normalize_index. cbn [Z.opp].
  destruct (Z.leb_spec 0 i); destruct (Z.ltb_spec i 25);
    destruct (Z.leb_spec (-25) i); destruct (Z.ltb_spec i 0); simpl;
    try reflexivity; try lia.
  - rewrite Z.mod_small by lia. reflexivity.
  - f_equal. apply (Z.mod_unique_pos _ _ (-1)); lia.
Qed.

Lemma mapM_normalize_25 idxs :
  mapM (normalize_index 25) idxs
  = if forallb (fun i => (-25 <=? i) && (i <? 25)) idxs
    then Ok (map (fun i => i mod 25) idxs)
    else Err (Raised IndexError).
Proof.
  induction idxs as [|i idxs IH]; simpl; [reflexivity|].
  rewrite normalize_index_25, IH.
  destruct ((-25 <=? i) && (i <? 25)); simpl; [|reflexivity].
  destruct (forallb _ idxs); reflexivity.
Qed.

Lemma length_set_cell j v cells : length (set_cell j v cells) = length cells.
Proof.
  revert j; induction cells as [|c cells IH]; intros [|j]; simpl; auto.
Qed.

Lemma nth_set_cell j i v cells :
  (i < length cells)%nat ->
  nth j (set_cell i v cells) 0 = if (i =? j)%nat then v else nth j cells 0.
Proof.
  revert j i; induction cells as [|c cells IH]; intros j i Hi; simpl in Hi.
  - lia.
  - destruct i as [|i]; destruct j as [|j]; simpl; auto.
    apply IH. lia.
Qed.

Lemma fold_set_cell_spec v js : forall cells,
  Forall (fun i => (Z.to_nat i < length cells)%nat) js ->
  length (fold_left (fun acc i => set_cell (Z.to_nat i) v acc) js cells)
  = length cells
  /\ forall j,
      nth j (fold_left (fun acc i => set_cell (Z.to_nat i) v acc) js cells) 0
      = if existsb (fun i => (Z.to_nat i =? j)%nat) js then v
        else nth j cells 0.
Proof.
  induction js as [|i js IH]; intros cells Hjs; simpl.
  - split; auto.
  - inversion Hjs as [|? ? Hi Hrest]; subst.
    destruct (IH (set_cell (Z.to_nat i) v cells)) as [Hlen Hnth].
    + rewrite length_set_cell. exact Hrest.
    + split.
      * rewrite Hlen. apply length_set_cell.
      * intros j. rewrite Hnth.
        rewrite nth_set_cell by exact Hi.
        destruct (Z.to_nat i =? j)%nat; simpl; [|reflexivity].
        destruct (existsb _ js); reflexivity.
Qed.

(** ** The encoder loop *)

Lemma forallb_map_pred {A B} (g : A -> B) (p : B -> bool) l :
  forallb p (map g l) = forallb (fun a => p (g a)) l.
Proof. induction l as [|a l IH]; simpl; [|rewrite IH]; reflexivity. Qed.

Lemma existsb_map_pred {A B} (g : A -> B) (p : B -> bool) l :
  existsb p (map g l) = existsb (fun a => p (g a)) l.
Proof. induction l as [|a l IH]; simpl; [|rewrite IH]; reflexivity. Qed.

Lemma encode_row_closed row :
  encode_row row
  = if forallb indexable row
    then Ok (fold_left (fun acc i => set_cell (Z.to_nat i) 1 acc)
               (map (fun x => (x - 1) mod 25) row) (repeat 0 25))
    else Err (Raised IndexError).
Proof.
  unfold encode_row, assign_cells.
  change (Z.of_nat (length (repeat 0 25))) with 25.
  rewrite mapM_normalize_25, forallb_map_pred.
  replace (forallb (fun a => (-25 <=? a - 1) && (a - 1 <? 25)) row)
    with (forallb indexable row).
  - destruct (forallb indexable row); simpl; [|reflexivity].
    now rewrite map_map.
  - induction row as [|v row IH]; simpl; [reflexivity|]. rewrite IH. f_equal.
    unfold indexable.
    destruct (Z.leb_spec (-24) v); destruct (Z.leb_spec v 25);
      destruct (Z.leb_spec (-25) (v - 1)); destruct (Z.ltb_spec (v - 1) 25);
      simpl; try reflexivity; lia.
Qed.

Lemma encode_row_cells row cells :
  encode_row row = Ok cells ->
  length cells = 25%nat
  /\ forall j,
      nth j cells 0
      = if existsb (fun v => (Z.to_nat ((v - 1) mod 25) =? j)%nat) row
        then 1 else 0.
Proof.
  rewrite encode_row_closed.
  destruct (forallb indexable row); [|discriminate].
  intros H; inversion H; subst; clear H.
  destruct (fold_set_cell_spec 1 (map (fun x => (x - 1) mod 25) row)
              (repeat 0 25)) as [Hlen Hnth].
  - apply Forall_forall. intros i Hi. apply in_map_iff in Hi.
    destruct Hi as [v [<- _]]. rewrite repeat_length.
    pose proof (Z.mod_pos_bound (v - 1) 25). lia.
  - split.
    + exact Hlen.
    + intros j. etransitivity; [exact (Hnth j)|].
      rewrite existsb_map_pred.
      destruct (existsb _ row); [reflexivity|].
      apply nth_repeat.
Qed.

Lemma set_row_app done cells z rest :
  set_row (length done) cells (done ++ z :: rest) = done ++ cells :: rest.
Proof. induction done as [|d done IH]; simpl; [|rewrite IH]; reflexivity. Qed.

Lemma encode_rows_mapM rows : forall done,
  Transform.encode_rows (length done) rows (done ++ zeros (length rows) 25)
  = (rest <- mapM encode_row rows ;; Ok (done ++ rest)).
Proof.
  induction rows as [|row rows IH]; intros done.
  - reflexivity.
  - cbn [Transform.encode_rows mapM length].
    change (zeros (S (length rows)) 25)
      with (repeat 0 25 :: zeros (length rows) 25).
    rewrite app_nth2 by lia. rewrite Nat.sub_diag. cbn [nth].
    change (assign_cells (repeat 0 25) (map (fun x => x - 1) row) 1)
      with (encode_row row).
    destruct (encode_row row) as [cells|e]; cbn [bind]; [|reflexivity].
    rewrite set_row_app.
    replace (S (length done)) with (length (done ++ [cells]))
      by (rewrite length_app; simpl; lia).
    replace (done ++ cells :: zeros (length rows) 25)
      with ((done ++ [cells]) ++ zeros (length rows) 25)
      by (now rewrite <- app_assoc).
    rewrite IH.
    destruct (mapM encode_row rows) as [rest|e]; cbn [bind]; [|reflexivity].
    now rewrite <- app_assoc.
Qed.

Lemma mapM_encode_row_closed history :
  is_ok (mapM encode_row history) = history_indexable history
  /\ (history_indexable history = false ->
      mapM encode_row history = Err (Raised IndexError)).
Proof.
  unfold history_indexable.
  induction history as [|row history [IH1 IH2]]; simpl.
  - split; [reflexivity|discriminate].
  - rewrite encode_row_closed.
    destruct (forallb indexable row); simpl.
    + destruct (mapM encode_row history) as [rest|e]; simpl in *.
      * split; [exact IH1|]. intros H. rewrite H in IH1. discriminate.
      * split; [exact IH1|]. intros H. specialize (IH2 H). now rewrite IH2.
    + split; [reflexivity|reflexivity].
Qed.

(** What the encoder loop returns, for the whole table. *)
Lemma encode_rows_closed history :
  Transform.encode_rows 0 history (zeros (length history) 25)
  = mapM encode_row history.
Proof.
  etransitivity; [exact (encode_rows_mapM history [])|].
  destruct (mapM encode_row history); reflexivity.
Qed.

Lemma is_onehot_forall m :
  is_onehot m = true <->
  forall row, In row m ->
    length row = 25%nat /\ forall j, nth j row 0 = 0 \/ nth j row 0 = 1.
Proof.
  unfold is_onehot. rewrite forallb_forall. split.
  - intros H row Hin. specialize (H row Hin).
    apply andb_true_iff in H. destruct H as [Hl Hc].
    apply Nat.eqb_eq in Hl. split; [exact Hl|].
    intros j. destruct (Nat.lt_ge_cases j (length row)) as [Hj|Hj].
    + rewrite forallb_forall in Hc.
      specialize (Hc (nth j row 0) (nth_In _ _ Hj)).
      apply orb_true_iff in Hc. destruct Hc as [Hc|Hc];
        apply Z.eqb_eq in Hc; auto.
    + left. now apply nth_overflow.
  - intros H row Hin. destruct (H row Hin) as [Hl Hc].
    apply andb_true_iff. split; [now apply Nat.eqb_eq|].
    apply forallb_forall. intros c Hcin.
    destruct (In_nth _ _ 0 Hcin) as [j [_ <-]].
    apply orb_true_iff.
    destruct (Hc j) as [-> | ->]; auto.
Qed.

Lemma mapM_encode_row_rows history m :
  mapM encode_row history = Ok m ->
  Forall2 (fun row cells => encode_row row = Ok cells) history m.
Proof.
  revert m; induction history as [|row history IH]; simpl; intros m H.
  - inversion H. constructor.
  - destruct (encode_row row) as [cells|e] eqn:Hrow; simpl in H; [|discriminate].
    destruct (mapM encode_row history) as [rest|e]; simpl in H; [|discriminate].
    inversion H; subst. constructor; auto.
Qed.

(** The encoder produces an occurrence matrix. *)
Lemma encoded_is_onehot history m :
  mapM encode_row history = Ok m -> is_onehot m = true.
Proof.
  intros H. apply mapM_encode_row_rows in H.
  apply is_onehot_forall.
  induction H as [|row cells history m Hrow _ IH]; intros r Hin.
  - destruct Hin.
  - destruct Hin as [<-|Hin]; [|now apply IH].
    destruct (encode_row_cells _ _ Hrow) as [Hl Hn].
    split; [exact Hl|]. intros j. rewrite Hn.
    destruct (existsb _ row); auto.
Qed.

(** ** The score dict *)

Lemma in_keys n : In n keys <-> 1 <= n <= 25.
Proof.
  unfold keys. rewrite in_map_iff. split.
  - intros [i [<- Hi]]. apply in_seq in Hi. lia.
  - intros H. exists (Z.to_nat (n - 1)). split; [lia|].
    apply in_seq. lia.
Qed.

Lemma NoDup_keys : NoDup keys.
Proof.
  unfold keys. apply Finite.Injective_map_NoDup.
  - intros i j H. lia.
  - apply seq_NoDup.
Qed.

Lemma map_fst_table ks f : map fst (table ks f) = ks.
Proof.
  unfold table. rewrite map_map. simpl. apply map_id.
Qed.

Lemma dict_add_table ks f k v :
  NoDup ks -> In k ks ->
  dict_add (table ks f) k v = Ok (table ks (add_at k v f)).
Proof.
  induction ks as [|a ks IH]; intros Hnd Hin; [destruct Hin|].
  inversion Hnd as [|? ? Hnotin Hnd']; subst.
  cbn [table map dict_add]. unfold add_at at 1.
  destruct (Z.eqb_spec a k) as [->|Hne].
  - do 2 f_equal. apply map_ext_in. intros n Hn. unfold add_at.
    destruct (Z.eqb_spec n k) as [->|_]; [contradiction|reflexivity].
  - destruct Hin as [Heq|Hin]; [contradiction|].
    fold (table ks f). rewrite (IH Hnd' Hin). reflexivity.
Qed.

Lemma foldM_map {E A B C} (g : A -> C -> result E A) (h : B -> C) l : forall a,
  foldM (fun d x => g d (h x)) a l = foldM g a (map h l).
Proof.
  induction l as [|b l IH]; intros a; simpl; [reflexivity|].
  destruct (g a (h b)); simpl; auto.
Qed.

Lemma foldM_dict_add ks kvs : forall f,
  NoDup ks -> (forall kv, In kv kvs -> In (fst kv) ks) ->
  foldM (fun d kv => dict_add d (fst kv) (snd kv)) (table ks f) kvs
  = Ok (table ks (accumulate f kvs)).
Proof.
  induction kvs as [|kv kvs IH]; intros f Hnd Hin; [reflexivity|].
  cbn [foldM]. rewrite dict_add_table by (auto; apply Hin; now left).
  cbn [bind]. rewrite IH by (auto; intros; apply Hin; now right).
  reflexivity.
Qed.

(** The numbers the scorer reads from a set of labels are the numbers of
    these labels. *)
Lemma holds_extracted n fs :
  holds n fs = existsb (Z.eqb n) (extract_numbers_from_frozenset fs).
Proof.
  unfold holds, extract_numbers_from_frozenset.
  induction fs as [|[v] fs IH]; cbn [existsb map label_eqb]; [reflexivity|].
  now rewrite IH.
Qed.

Lemma column_label_range v :
  existsb (label_eqb (num_ v)) column_labels = in_range v.
Proof.
  apply eq_true_iff_eq. rewrite existsb_exists.
  unfold column_labels, in_range. split.
  - intros [l [Hl E]]. apply in_map_iff in Hl. destruct Hl as [i [<- Hi]].
    apply in_seq in Hi. cbn [label_eqb] in E. lia.
  - intros H. exists (num_ v). split.
    + apply in_map_iff. exists (Z.to_nat (v - 1)). split; [f_equal; lia|].
      apply in_seq. lia.
    + cbn [label_eqb]. apply Z.eqb_refl.
Qed.

Lemma in_columns_extracted fs :
  in_columns fs = forallb in_range (extract_numbers_from_frozenset fs).
Proof.
  unfold in_columns, extract_numbers_from_frozenset.
  induction fs as [|[v] fs IH]; cbn [forallb map]; [reflexivity|].
  now rewrite column_label_range, IH.
Qed.

Lemma distinct_extracted fs :
  distinct fs = nodupb (extract_numbers_from_frozenset fs).
Proof.
  induction fs as [|[v] fs IH]; [reflexivity|].
  cbn [distinct]. rewrite IH.
  change (existsb (label_eqb (num_ v)) fs) with (holds v fs).
  now rewrite holds_extracted.
Qed.

Lemma extracted_app fs gs :
  extract_numbers_from_frozenset (fs ++ gs)
  = extract_numbers_from_frozenset fs ++ extract_numbers_from_frozenset gs.
Proof. apply map_app. Qed.

Lemma rule_in_columns_extracted r :
  rule_in_columns r = forallb in_range (rule_numbers r).
Proof.
  unfold rule_in_columns, rule_numbers.
  now rewrite in_columns_extracted, extracted_app.
Qed.

Lemma rule_ok_extracted r :
  rule_ok r = true -> nodupb (rule_numbers r) = true.
Proof.
  unfold rule_ok, rule_numbers. intros H. apply andb_true_iff in H.
  destruct H as [_ H]. now rewrite distinct_extracted, extracted_app in H.
Qed.

Lemma rule_in_columns_numbers r :
  rule_in_columns r = true ->
  (forall n, In n (rule_numbers r) -> 1 <= n <= 25).
Proof.
  rewrite rule_in_columns_extracted. intros H n Hn.
  rewrite forallb_forall in H. specialize (H n Hn). unfold in_range in H.
  lia.
Qed.

Lemma rules_ok_in_columns rule_table :
  forallb rule_ok rule_table = true ->
  forallb rule_in_columns rule_table = true.
Proof.
  rewrite !forallb_forall. intros H r Hr. specialize (H r Hr).
  unfold rule_ok in H. apply andb_true_iff in H. tauto.
Qed.

Lemma rule_updates_in_keys r kv :
  rule_in_columns r = true -> In kv (rule_updates r) -> In (fst kv) keys.
Proof.
  intros Hok Hin. unfold rule_updates in Hin. apply in_map_iff in Hin.
  destruct Hin as [n [<- Hn]]. cbn [fst]. apply in_keys.
  now apply (rule_in_columns_numbers r).
Qed.

Lemma frequency_updates_in_keys m kv :
  In kv (frequency_updates m) -> In (fst kv) keys.
Proof.
  unfold frequency_updates. intros Hin. apply in_map_iff in Hin.
  destruct Hin as [i [<- Hi]]. cbn [fst]. apply in_keys.
  apply in_seq in Hi. lia.
Qed.

Lemma foldM_rules rule_table : forall f,
  forallb rule_in_columns rule_table = true ->
  foldM (fun d rule =>
           let ant_nums := extract_numbers_from_frozenset (antecedents rule) in
           let cons_nums := extract_numbers_from_frozenset (consequents rule) in
           let score := (confidence rule * support rule * (4 # 10))%Q in
           foldM (fun d' num => dict_add d' num score) d
                 (ant_nums ++ cons_nums))
        (table keys f) rule_table
  = Ok (table keys
          (fold_left (fun g r => accumulate g (rule_updates r)) rule_table f)).
Proof.
  induction rule_table as [|r rs IH]; intros f Hok; [reflexivity|].
  cbn [forallb] in Hok. apply andb_true_iff in Hok. destruct Hok as [Hr Hrs].
  cbn [foldM fold_left]. cbv zeta.
  rewrite (foldM_map (fun d kv => dict_add d (fst kv) (snd kv))
             (fun num => (num, (confidence r * support r * (4 # 10))%Q))).
  fold (rule_numbers r). fold (rule_updates r).
  rewrite foldM_dict_add
    by (auto using NoDup_keys; intros; now apply (rule_updates_in_keys r)).
  cbn [bind]. now apply IH.
Qed.

(** The scoring loops never raise on rules over the 25 columns, and the dict
    they leave tabulates [score_fun] on the keys 1..25, in that order. *)
Lemma compute_number_scores_closed m rule_table :
  forallb rule_in_columns rule_table = true ->
  compute_number_scores m rule_table = Ok (table keys (score_fun m rule_table)).
Proof.
  intros Hok. unfold compute_number_scores. cbv zeta.
  change (map (fun i => (Z.of_nat i + 1, 0%Q)) (seq 0 25))
    with (table keys (fun _ => 0%Q)).
  rewrite (foldM_map (fun d kv => dict_add d (fst kv) (snd kv))
             (fun i => (Z.of_nat i + 1, (frequency m i * (3 # 10))%Q))).
  fold (frequency_updates m).
  rewrite foldM_dict_add
    by (auto using NoDup_keys; intros; now apply (frequency_updates_in_keys m)).
  cbn [bind]. rewrite foldM_rules by exact Hok. cbn [bind].
  rewrite (foldM_map (fun d kv => dict_add d (fst kv) (snd kv))
             (fun i => (Z.of_nat i + 1,
                        (frequency (iloc_last 10 m) i * (3 # 10))%Q))).
  fold (frequency_updates (iloc_last 10 m)).
  rewrite foldM_dict_add
    by (auto using NoDup_keys; intros;
        now apply (frequency_updates_in_keys (iloc_last 10 m))).
  reflexivity.
Qed.

(** ** The value of each score *)

Lemma accumulate_eq kvs : forall f n,
  (accumulate f kvs n == f n + sum_at n kvs)%Q.
Proof.
  induction kvs as [|kv kvs IH]; intros f n.
  - simpl. ring.
  - change (accumulate f (kv :: kvs) n)
      with (accumulate (add_at (fst kv) (snd kv) f) kvs n).
    rewrite IH. unfold add_at. cbn [sum_at fold_right].
    fold (sum_at n kvs).
    destruct (n =? fst kv); ring.
Qed.

Lemma sum_at_seq (g : nat -> Q) n len : forall s,
  (sum_at n (map (fun i => ((Z.of_nat i + 1)%Z, g i)) (seq s len))
   == if ((Z.of_nat s + 1 <=? n) && (n <=? Z.of_nat s + Z.of_nat len))%Z
      then g (Z.to_nat (n - 1)%Z) else 0)%Q.
Proof.
  induction len as [|len IH]; intros s.
  - simpl.
    destruct (Z.leb_spec (Z.of_nat s + 1) n);
      destruct (Z.leb_spec n (Z.of_nat s + 0)); simpl; try reflexivity; lia.
  - cbn [seq map sum_at fold_right fst snd].
    fold (sum_at n (map (fun i => (Z.of_nat i + 1, g i)) (seq (S s) len))).
    destruct (Z.eqb_spec n (Z.of_nat s + 1)) as [->|Hne]; rewrite IH.
    + replace (Z.to_nat (Z.of_nat s + 1 - 1)) with s by lia.
      destruct (Z.leb_spec (Z.of_nat (S s) + 1) (Z.of_nat s + 1)); [lia|].
      destruct (Z.leb_spec (Z.of_nat s + 1) (Z.of_nat s + 1)); [|lia].
      destruct (Z.leb_spec (Z.of_nat s + 1) (Z.of_nat s + Z.of_nat (S len)));
        [|lia].
      simpl. ring.
    + destruct (Z.leb_spec (Z.of_nat (S s) + 1) n);
        destruct (Z.leb_spec n (Z.of_nat (S s) + Z.of_nat len));
        destruct (Z.leb_spec (Z.of_nat s + 1) n);
        destruct (Z.leb_spec n (Z.of_nat s + Z.of_nat (S len)));
        simpl; try reflexivity; lia.
Qed.

Lemma sum_at_frequency_updates m n :
  1 <= n <= 25 ->
  (sum_at n (frequency_updates m)
   == frequency m (Z.to_nat (n - 1)%Z) * (3 # 10))%Q.
Proof.
  intros Hn. unfold frequency_updates.
  rewrite (sum_at_seq (fun i => (frequency m i * (3 # 10))%Q) n 25 0).
  destruct (Z.leb_spec (Z.of_nat 0 + 1) n); [|lia].
  destruct (Z.leb_spec n (Z.of_nat 0 + Z.of_nat 25)); [|lia].
  reflexivity.
Qed.

Lemma nodupb_cons x l :
  nodupb (x :: l) = true -> existsb (Z.eqb x) l = false /\ nodupb l = true.
Proof.
  simpl. intros H. apply andb_true_iff in H. destruct H as [H1 H2].
  split; [now apply negb_true_iff in H1|exact H2].
Qed.

Lemma sum_at_constant c n nums :
  nodupb nums = true ->
  (sum_at n (map (fun num => (num, c)) nums)
   == if existsb (Z.eqb n) nums then c else 0)%Q.
Proof.
  induction nums as [|x nums IH]; intros Hnd; [reflexivity|].
  apply nodupb_cons in Hnd. destruct Hnd as [Hx Hnd].
  cbn [map sum_at fold_right fst snd existsb].
  fold (sum_at n (map (fun num => (num, c)) nums)).
  destruct (Z.eqb_spec n x) as [->|Hne]; rewrite (IH Hnd); simpl.
  - rewrite Hx. ring.
  - reflexivity.
Qed.

Lemma mentions_rule_numbers n r :
  mentions n r = existsb (Z.eqb n) (rule_numbers r).
Proof.
  unfold mentions, rule_numbers.
  now rewrite existsb_app, !holds_extracted.
Qed.

Lemma fold_rules_strength rule_table :
  forallb rule_ok rule_table = true ->
  forall f n,
    (fold_left (fun g r => accumulate g (rule_updates r)) rule_table f n
     == f n + (4 # 10) * rule_strength rule_table n)%Q.
Proof.
  induction rule_table as [|r rs IH]; intros Hok f n.
  - unfold rule_strength. simpl. ring.
  - cbn [forallb] in Hok. apply andb_true_iff in Hok. destruct Hok as [Hr Hrs].
    cbn [fold_left]. rewrite (IH Hrs). rewrite accumulate_eq.
    unfold rule_updates. rewrite sum_at_constant.
    + rewrite <- mentions_rule_numbers.
      unfold rule_strength. cbn [filter].
      destruct (mentions n r); cbn [fold_right]; ring.
    + now apply rule_ok_extracted.
Qed.

Lemma column_sum_count m n :
  is_onehot m = true ->
  column_sum m (Z.to_nat (n - 1)) = Z.of_nat (length (filter (appears n) m)).
Proof.
  intros H. rewrite is_onehot_forall in H.
  induction m as [|row m IH]; [reflexivity|].
  cbn [column_sum fold_right filter]. fold (column_sum m (Z.to_nat (n - 1))).
  rewrite IH by (intros r Hr; apply H; now right).
  destruct (H row (or_introl eq_refl)) as [_ Hc].
  unfold appears at 2.
  destruct (Hc (Z.to_nat (n - 1))) as [E|E]; rewrite E;
    change (0 =? 1) with false; change (1 =? 1) with true;
    cbn [length]; lia.
Qed.

Lemma is_onehot_skipn k m : is_onehot m = true -> is_onehot (skipn k m) = true.
Proof.
  rewrite !is_onehot_forall. intros H row Hin. apply H.
  rewrite <- (firstn_skipn k m). apply in_or_app. now right.
Qed.

Lemma iloc_last_is_last_rows m : iloc_last 10 m = last_rows recent_window m.
Proof.
  unfold iloc_last, last_rows, recent_window.
  destruct (Nat.leb_spec (length m) 10) as [H|H]; [|reflexivity].
  replace (length m - 10)%nat with 0%nat by lia. reflexivity.
Qed.

Lemma frequency_is_fraction m n :
  is_onehot m = true ->
  frequency m (Z.to_nat (n - 1)) = fraction_of_appearances m n.
Proof.
  intros H. unfold frequency, fraction_of_appearances.
  now rewrite column_sum_count.
Qed.

(** Every final score is the weighted sum of the three signals. *)
Lemma score_fun_formula m rule_table n :
  is_onehot m = true -> forallb rule_ok rule_table = true -> 1 <= n <= 25 ->
  (score_fun m rule_table n == final_score m rule_table n)%Q.
Proof.
  intros Hm Hr Hn. unfold score_fun, final_score, final_score_with.
  rewrite accumulate_eq, (fold_rules_strength _ Hr), accumulate_eq.
  rewrite !sum_at_frequency_updates by exact Hn.
  rewrite (frequency_is_fraction m n Hm).
  rewrite (frequency_is_fraction (iloc_last 10 m) n)
    by (now apply is_onehot_skipn).
  rewrite iloc_last_is_last_rows. ring.
Qed.

(** ** The final sort *)

Lemma insert_desc_perm x l : Permutation (insert_desc x l) (x :: l).
Proof.
  induction l as [|y l IH]; simpl; [reflexivity|].
  destruct (Qle_bool (snd y) (snd x)); [reflexivity|].
  rewrite IH. apply perm_swap.
Qed.

Lemma sorted_reverse_perm l : Permutation (sorted_reverse l) l.
Proof.
  induction l as [|x l IH]; simpl; [reflexivity|].
  rewrite insert_desc_perm. now constructor.
Qed.







Lemma StronglySorted_app_left {A} (R : A -> A -> Prop) l1 l2 :
  StronglySorted R (l1 ++ l2) -> StronglySorted R l1.
Proof.
  induction l1 as [|a l1 IH]; simpl; intros Hs; [constructor|].
  inversion Hs as [|? ? Hs' Ha]; subst.
  constructor; [now apply IH|].
  rewrite Forall_forall in *. intros y Hy. apply Ha. apply in_or_app. now left.
Qed.

(** The outcome of [calculate_recommendations] once table and rules are
    set. *)
Lemma calculate_recommendations_closed self onehot rule_table :
  onehot_df self = Some onehot -> rules self = Some rule_table ->
  forallb rule_in_columns rule_table = true ->
  exists self',
    calculate_recommendations self = Ok self'
    /\ recommended_numbers self'
       = Some (firstn 15 (sorted_reverse
                            (table keys (score_fun onehot rule_table))))
    /\ onehot_df self' = Some onehot /\ rules self' = Some rule_table.
Proof.
  intros Ho Hr Hok. unfold calculate_recommendations. rewrite Ho, Hr.
  rewrite (compute_number_scores_closed onehot rule_table Hok). cbn [bind].
  eexists. split; [reflexivity|]. cbn. auto.
Qed.

Lemma length_ranking f : length (sorted_reverse (table keys f)) = 25%nat.
Proof.
  rewrite (Permutation_length (sorted_reverse_perm _)).
  unfold table, keys. now rewrite !length_map, length_seq.
Qed.

(** ** The scorer *)

(** The scores the loops leave, stated once for the theorems below. *)
Lemma scores_are_weighted_sums (onehot : Matrix)
  (rule_table : list Rule) :
  is_onehot onehot = true ->
  forallb rule_ok rule_table = true ->
  exists number_scores,
    compute_number_scores onehot rule_table = Ok number_scores
    /\ forall n s, In (n, s) number_scores ->
         (s == final_score onehot rule_table n)%Q.
Proof.
  intros Hm Hr.
  exists (table keys (score_fun onehot rule_table)). split.
  - apply compute_number_scores_closed. now apply rules_ok_in_columns.
  - intros n s Hin. unfold table in Hin. apply in_map_iff in Hin.
    destruct Hin as [k [Heq Hk]]. inversion Heq; subst.
    apply score_fun_formula; auto. now apply in_keys.
Qed.

(** C1.  For an occurrence matrix with at least one row and rules over the
    25 columns (antecedent and consequent disjoint sets), the scoring loops
    end with one score per number 1..25, and the score of [n] is
    0.3 x (fraction of all rows in which n appears)
    + 0.4 x (sum of confidence x support over the rules whose antecedent or
    consequent holds n, one full contribution per such rule)
    + 0.3 x (fraction of the last 10 rows in which n appears, of all rows
    when there are fewer than 10). *)
Theorem final_score_is_weighted_sum (onehot : Matrix) (rule_table : list Rule) :
  is_onehot onehot = true ->
  onehot <> [] ->
  forallb rule_ok rule_table = true ->
  exists number_scores,
    compute_number_scores onehot rule_table = Ok number_scores
    /\ map fst number_scores = keys
    /\ forall n s, In (n, s) number_scores ->
         (s == final_score onehot rule_table n)%Q.
Proof.
  intros Hm _ Hr.
  exists (table keys (score_fun onehot rule_table)). split; [|split].
  - apply compute_number_scores_closed. now apply rules_ok_in_columns.
  - apply map_fst_table.
  - intros n s Hin. unfold table in Hin. apply in_map_iff in Hin.
    destruct Hin as [k [Heq Hk]]. inversion Heq; subst.
    apply score_fun_formula; auto. now apply in_keys.
Qed.

Lemma final_score_is_weighted_sum_witness :
  exists number_scores,
    compute_number_scores Examples.two_draws_onehot Examples.pair_rules
    = Ok number_scores
    /\ map fst number_scores = keys
    /\ forall n s, In (n, s) number_scores ->
         (s == final_score Examples.two_draws_onehot Examples.pair_rules n)%Q.
Proof.
  apply (final_score_is_weighted_sum Examples.two_draws_onehot
           Examples.pair_rules);
    [reflexivity | discriminate | reflexivity].
Defined.

(** C6.  Once a non-empty table and rules over the 25 columns are set,
    [calculate_recommendations] succeeds and the recommendation holds exactly
    15 numbers, pairwise distinct, each in 1..25. *)
Theorem recommendation_has_15_distinct_numbers
  (self : LotofacilAnalyzer) (onehot : Matrix) (rule_table : list Rule) :
  onehot_df self = Some onehot ->
  rules self = Some rule_table ->
  onehot <> [] ->
  forallb rule_in_columns rule_table = true ->
  exists self' recommended,
    calculate_recommendations self = Ok self'
    /\ recommended_numbers self' = Some recommended
    /\ length recommended = 15%nat
    /\ NoDup (map fst recommended)
    /\ forall n, In n (map fst recommended) -> 1 <= n <= 25.
Proof.
  intros Ho Hr _ Hok.
  destruct (calculate_recommendations_closed self onehot rule_table Ho Hr Hok)
    as [self' [Hcalc [Hrec _]]].
  remember (sorted_reverse (table keys (score_fun onehot rule_table)))
    as ranking eqn:Hrk.
  assert (Hperm : Permutation (map fst ranking) keys).
  { subst ranking.
    apply Permutation_trans
      with (map fst (table keys (score_fun onehot rule_table))).
    - apply Permutation_map. apply sorted_reverse_perm.
    - rewrite map_fst_table. apply Permutation_refl. }
  exists self', (firstn 15 ranking).
  split; [exact Hcalc|]. split; [exact Hrec|]. split; [|split].
  - rewrite length_firstn. subst ranking. rewrite length_ranking. reflexivity.
  - assert (Hnd : NoDup (map fst ranking)).
    { apply (Permutation_NoDup (Permutation_sym Hperm)). apply NoDup_keys. }
    rewrite <- (firstn_skipn 15 ranking), map_app in Hnd.
    apply NoDup_app_remove_r in Hnd. exact Hnd.
  - intros n H. apply in_keys. apply (Permutation_in _ Hperm).
    apply in_map_iff in H. destruct H as [x [<- Hx]].
    apply in_map. rewrite <- (firstn_skipn 15 ranking).
    apply in_or_app. now left.
Qed.

Lemma recommendation_has_15_distinct_numbers_witness :
  exists self' recommended,
    calculate_recommendations (Examples.scored_two_draws Examples.pair_rules)
    = Ok self'
    /\ recommended_numbers self' = Some recommended
    /\ length recommended = 15%nat
    /\ NoDup (map fst recommended)
    /\ forall n, In n (map fst recommended) -> 1 <= n <= 25.
Proof.
  apply (recommendation_has_15_distinct_numbers
           (Examples.scored_two_draws Examples.pair_rules)
           Examples.two_draws_onehot Examples.pair_rules);
    [reflexivity | reflexivity | discriminate | reflexivity].
Defined.

(** ** Frequencies of a number present in every draw *)










Lemma existsb_eqb_In n l : existsb (Z.eqb n) l = true <-> In n l.
Proof.
  rewrite existsb_exists. split.
  - intros [x [Hx E]]. apply Z.eqb_eq in E. now subst.
  - intros H. exists n. split; [exact H|apply Z.eqb_refl].
Qed.

(** In the encoding of a row of numbers in 1..25, the cell of [n] is set
    exactly when [n] is in the row. *)
Lemma appears_encoded row cells n :
  encode_row row = Ok cells -> forallb in_range row = true -> 1 <= n <= 25 ->
  appears n cells = existsb (Z.eqb n) row.
Proof.
  intros Henc Hrow Hn. destruct (encode_row_cells _ _ Henc) as [_ Hnth].
  unfold appears. rewrite Hnth. clear Henc Hnth.
  induction row as [|v row IH]; [reflexivity|].
  cbn [forallb] in Hrow. apply andb_true_iff in Hrow. destruct Hrow as [Hv Hrow].
  specialize (IH Hrow). cbn [existsb].
  unfold in_range in Hv.
  assert (Hmod : (v - 1) mod 25 = v - 1) by (apply Z.mod_small; lia).
  rewrite Hmod.
  destruct (Z.eqb_spec n v) as [->|Hne].
  - rewrite Nat.eqb_refl. reflexivity.
  - destruct (Nat.eqb_spec (Z.to_nat (v - 1)) (Z.to_nat (n - 1))) as [E|_];
      [lia|]. exact IH.
Qed.

Lemma valid_draw_facts row :
  valid_draw row = true ->
  length row = 15%nat /\ forallb in_range row = true.
Proof.
  unfold valid_draw. intros H.
  apply andb_true_iff in H. destruct H as [Hln Hr].
  apply andb_true_iff in Hln. destruct Hln as [Hl _].
  apply Nat.eqb_eq in Hl. auto.
Qed.



(** Loading a table whose values numpy can index. *)
Lemma load_and_prepare_data_closed read_csv self history :
  read_csv (csv_file self) = Ok history ->
  history_indexable history = true ->
  exists onehot,
    mapM encode_row history = Ok onehot
    /\ load_and_prepare_data read_csv self
       = Ok (mkAnalyzer (csv_file self) (min_support self)
               (min_confidence self) (Some history) (Some onehot)
               (frequent_itemsets self) (rules self)
               (recommended_numbers self)).
Proof.
  intros Hcsv Hidx.
  destruct (mapM_encode_row_closed history) as [Hok _].
  rewrite Hidx in Hok.
  destruct (mapM encode_row history) as [onehot|e] eqn:Henc; [|discriminate].
  exists onehot. split; [reflexivity|].
  unfold load_and_prepare_data. rewrite Hcsv. cbn [from_library bind].
  rewrite encode_rows_closed, Henc. reflexivity.
Qed.






(** ** A number present in every draw *)




(** The bound on the rule strengths in the amended statement is what the
    scorer needs: [calculate_recommendations] adds the rule term to any
    number without limit.  Here [self.rules] is set to the ten rules of
    [Examples.pair_rules] (a table chosen for the purpose, with the supports
    and confidences the two draws give these rules, and not the table the
    miner returns for them): 7 is in both draws and the recommendation is
    8..17 followed by 1..5. *)
Lemma rule_strength_can_outweigh_presence :
  forallb valid_draw Examples.two_draws = true
  /\ forallb (fun row => existsb (Z.eqb 7) row) Examples.two_draws = true
  /\ forallb rule_ok Examples.pair_rules = true
  /\ forallb (rule_holds_in Examples.two_draws_onehot) Examples.pair_rules
     = true
  /\ exists loaded scored recommended,
       load_and_prepare_data (Examples.csv_holding Examples.two_draws)
         Examples.fresh_analyzer = Ok loaded
       /\ calculate_recommendations (with_rules loaded Examples.pair_rules)
          = Ok scored
       /\ recommended_numbers scored = Some recommended
       /\ map fst recommended
          = [8; 9; 10; 11; 12; 13; 14; 15; 16; 17; 1; 2; 3; 4; 5]
       /\ ~ In 7 (map fst recommended).
Proof.
  split; [reflexivity|]. split; [reflexivity|]. split; [reflexivity|].
  split; [vm_compute; reflexivity|].
  eexists. eexists. eexists.
  split; [reflexivity|]. split; [reflexivity|]. split; [reflexivity|].
  split.
  - vm_compute. reflexivity.
  - intros H. vm_compute in H. intuition discriminate.
Qed.

(** ** The encoder and its errors *)

Lemma load_and_prepare_data_rejects read_csv self history :
  read_csv (csv_file self) = Ok history ->
  history_indexable history = false ->
  load_and_prepare_data read_csv self = Err (Raised IndexError).
Proof.
  intros Hcsv Hidx. unfold load_and_prepare_data.
  rewrite Hcsv. cbn [from_library bind]. rewrite encode_rows_closed.
  destruct (mapM_encode_row_closed history) as [_ Herr].
  rewrite (Herr Hidx). reflexivity.
Qed.

(** C2, as amended.  A table of 64-bit integers whose rows have the same
    number of fields is rejected as a whole exactly when one of its draws
    holds a value below -24 or above 25, and then with numpy's IndexError,
    raised by the encoder whatever the mining library is (so before any
    mining); every other such table, whatever the number of its columns and
    with values down to -24, is encoded row by row without error. *)
Theorem load_rejects_exactly_unindexable_histories
  (read_csv : string -> result builtin_exception DataFrame)
  (apriori : Matrix -> Q -> nat -> result builtin_exception (list Itemset))
  (association_rules :
     list Itemset -> Q -> result builtin_exception (list Rule))
  (arquivo_csv : string) (s c : Q) (history : DataFrame) :
  read_csv arquivo_csv = Ok history ->
  int64_table history = true ->
  (history_indexable history = false ->
   (forall self, csv_file self = arquivo_csv ->
      load_and_prepare_data read_csv self = Err (Raised IndexError))
   /\ run read_csv apriori association_rules arquivo_csv s c
      = Err (Raised IndexError))
  /\ (history_indexable history = true ->
      forall self, csv_file self = arquivo_csv ->
      exists loaded onehot,
        load_and_prepare_data read_csv self = Ok loaded
        /\ df loaded = Some history
        /\ onehot_df loaded = Some onehot
        /\ length onehot = length history).
Proof.
  intros Hcsv _. split.
  - intros Hidx.
    assert (Hload : forall self, csv_file self = arquivo_csv ->
              load_and_prepare_data read_csv self = Err (Raised IndexError)).
    { intros self Hself. apply (load_and_prepare_data_rejects _ _ history).
      - now rewrite Hself.
      - exact Hidx. }
    split; [exact Hload|].
    unfold run, __init__. cbn [bind].
    rewrite Hload by reflexivity. reflexivity.
  - intros Hidx self Hself.
    rewrite <- Hself in Hcsv.
    destruct (load_and_prepare_data_closed read_csv self history Hcsv Hidx)
      as [onehot [Henc Hload]].
    eexists. exists onehot. split; [exact Hload|].
    split; [reflexivity|]. split; [reflexivity|].
    now apply mapM_ok_length in Henc.
Qed.

Lemma load_rejects_exactly_unindexable_histories_witness :
  (history_indexable [Examples.draw_with_zero; Examples.draw_with_26] = false ->
   (forall self, csv_file self = "lotofacil.csv"%string ->
      load_and_prepare_data
        (Examples.csv_holding [Examples.draw_with_zero; Examples.draw_with_26])
        self = Err (Raised IndexError))
   /\ run (Examples.csv_holding [Examples.draw_with_zero; Examples.draw_with_26])
          Examples.apriori_none Examples.rules_none "lotofacil.csv"
          (3 # 10) (5 # 10)
      = Err (Raised IndexError))
  /\ (history_indexable [Examples.draw_with_zero; Examples.draw_with_26] = true ->
      forall self, csv_file self = "lotofacil.csv"%string ->
      exists loaded onehot,
        load_and_prepare_data
          (Examples.csv_holding [Examples.draw_with_zero; Examples.draw_with_26])
          self = Ok loaded
        /\ df loaded = Some [Examples.draw_with_zero; Examples.draw_with_26]
        /\ onehot_df loaded = Some onehot
        /\ length onehot
           = length [Examples.draw_with_zero; Examples.draw_with_26]).
Proof.
  apply (load_rejects_exactly_unindexable_histories
           (Examples.csv_holding [Examples.draw_with_zero; Examples.draw_with_26])
           Examples.apriori_none Examples.rules_none "lotofacil.csv"
           (3 # 10) (5 # 10) [Examples.draw_with_zero; Examples.draw_with_26]);
    reflexivity.
Defined.

(** C2 as stated fails: a table of one draw of 14 numbers (14 columns), and
    a table of one draw holding the value 0, are tables of 64-bit integers
    and are encoded and stored without any error. *)
Lemma malformed_draws_are_not_rejected :
  int64_table Examples.fourteen_numbers = true
  /\ int64_table [Examples.draw_with_zero] = true
  /\ forallb valid_draw Examples.fourteen_numbers = false
  /\ load_and_prepare_data (Examples.csv_holding Examples.fourteen_numbers)
       Examples.fresh_analyzer
     = Ok (mkAnalyzer "lotofacil.csv" default_min_support
             default_min_confidence (Some Examples.fourteen_numbers)
             (Some [[1; 1; 1; 1; 1; 1; 1; 1; 1; 1; 1; 1; 1; 1; 0; 0; 0; 0; 0;
                     0; 0; 0; 0; 0; 0]])
             None None None)
  /\ valid_draw Examples.draw_with_zero = false
  /\ load_and_prepare_data (Examples.csv_holding [Examples.draw_with_zero])
       Examples.fresh_analyzer
     = Ok (mkAnalyzer "lotofacil.csv" default_min_support
             default_min_confidence (Some [Examples.draw_with_zero])
             (Some [[0; 1; 1; 1; 1; 1; 1; 1; 1; 1; 1; 1; 1; 1; 1; 0; 0; 0; 0;
                     0; 0; 0; 0; 0; 1]])
             None None None).
Proof. repeat split; reflexivity. Qed.

(** C10, as amended.  In a table whose values numpy can index (none below
    -24, none above 25), a row that holds 0 raises nothing: 0 - 1 = -1
    resolves to index 24 of the 25 columns, and the cell of num_25 of that
    row is 1, in the analyser's table and in the one
    [create_lotofacil_onehot] returns. *)
Theorem zero_sets_the_last_column
  (read_csv : string -> result builtin_exception DataFrame)
  (self : LotofacilAnalyzer) (history : DataFrame) :
  read_csv (csv_file self) = Ok history ->
  history_indexable history = true ->
  normalize_index 25 (0 - 1) = Ok 24
  /\ exists loaded onehot,
       load_and_prepare_data read_csv self = Ok loaded
       /\ onehot_df loaded = Some onehot
       /\ Transform.create_lotofacil_onehot read_csv (csv_file self) = Ok onehot
       /\ Forall2 (fun row cells => In 0 row -> nth 24 cells 0 = 1)
                  history onehot.
Proof.
  intros Hcsv Hidx. split; [reflexivity|].
  destruct (load_and_prepare_data_closed read_csv self history Hcsv Hidx)
    as [onehot [Henc Hload]].
  eexists. exists onehot. split; [exact Hload|]. split; [reflexivity|].
  split.
  - unfold Transform.create_lotofacil_onehot. rewrite Hcsv.
    cbn [from_library bind]. rewrite encode_rows_closed. exact Henc.
  - apply mapM_encode_row_rows in Henc.
    apply Forall2_impl with (2 := Henc).
    intros row cells Hrow Hzero.
    destruct (encode_row_cells _ _ Hrow) as [_ Hnth].
    rewrite Hnth.
    assert (Hex : existsb (fun v => (Z.to_nat ((v - 1) mod 25) =? 24)%nat) row
                  = true).
    { apply existsb_exists. exists 0. split; [exact Hzero|reflexivity]. }
    now rewrite Hex.
Qed.

Lemma zero_sets_the_last_column_witness :
  normalize_index 25 (0 - 1) = Ok 24
  /\ exists loaded onehot,
       load_and_prepare_data (Examples.csv_holding [Examples.draw_with_zero])
         Examples.fresh_analyzer = Ok loaded
       /\ onehot_df loaded = Some onehot
       /\ Transform.create_lotofacil_onehot
            (Examples.csv_holding [Examples.draw_with_zero])
            (csv_file Examples.fresh_analyzer) = Ok onehot
       /\ Forall2 (fun row cells => In 0 row -> nth 24 cells 0 = 1)
                  [Examples.draw_with_zero] onehot.
Proof.
  apply (zero_sets_the_last_column
           (Examples.csv_holding [Examples.draw_with_zero])
           Examples.fresh_analyzer [Examples.draw_with_zero]);
    reflexivity.
Defined.

(** C10 as stated fails: the row 0, 2, ..., 14, 26 holds 0, and encoding it
    raises IndexError for its value 26, in both encoders; no cell is set. *)
Lemma row_holding_zero_and_26_is_rejected :
  In 0 Examples.draw_with_26
  /\ int64_table [Examples.draw_with_26] = true
  /\ load_and_prepare_data (Examples.csv_holding [Examples.draw_with_26])
       Examples.fresh_analyzer
     = Err (Raised IndexError)
  /\ Transform.create_lotofacil_onehot
       (Examples.csv_holding [Examples.draw_with_26]) "lotofacil.csv"
     = Err (Raised IndexError).
Proof.
  split; [now left|]. repeat split; reflexivity.
Qed.

(** ** Construction and mining *)

(** C4, as amended.  Construction never fails and checks nothing: whatever
    the two thresholds are, inside (0,1] or not, the analyser is built with
    exactly these values and with no data read (every data attribute is
    [None]); the itemset size is not a constructor argument. *)
Theorem construction_never_fails (arquivo_csv : string) (s c : Q) :
  exists self,
    __init__ arquivo_csv s c = Ok self
    /\ csv_file self = arquivo_csv
    /\ min_support self = s
    /\ min_confidence self = c
    /\ df self = None
    /\ onehot_df self = None
    /\ frequent_itemsets self = None
    /\ rules self = None
    /\ recommended_numbers self = None.
Proof.
  eexists. split; [reflexivity|]. cbn. repeat split; reflexivity.
Qed.

(** C4 as stated fails: min_support = 0 and min_confidence = 2 lie outside
    (0,1] and the analyser is constructed. *)
Lemma thresholds_outside_unit_interval_are_accepted :
  ~ (0 < 0)%Q
  /\ ~ (2 <= 1)%Q
  /\ __init__ "lotofacil.csv" 0 2
     = Ok (mkAnalyzer "lotofacil.csv" 0 2 None None None None None).
Proof.
  split; [|split].
  - apply Qlt_irrefl.
  - intros H. unfold Qle in H. simpl in H. lia.
  - reflexivity.
Qed.

(** C3, as amended.  [analyze_patterns] has no check of its own on the number
    of rows and never raises one of the specification's error kinds: it
    fails only when one of the two library calls fails, with that call's
    exception, and whenever both calls return it stores what they return,
    empty tables included. *)
Theorem analyze_patterns_only_fails_with_the_library
  (apriori : Matrix -> Q -> nat -> result builtin_exception (list Itemset))
  (association_rules :
     list Itemset -> Q -> result builtin_exception (list Rule))
  (self : LotofacilAnalyzer) (onehot : Matrix) :
  onehot_df self = Some onehot ->
  (forall e, analyze_patterns apriori association_rules self = Err e ->
     exists b, e = Raised b
       /\ (apriori onehot (min_support self) 6%nat = Err b
           \/ exists itemsets,
                apriori onehot (min_support self) 6%nat = Ok itemsets
                /\ association_rules itemsets (min_confidence self) = Err b))
  /\ (forall itemsets rule_table,
        apriori onehot (min_support self) 6%nat = Ok itemsets ->
        association_rules itemsets (min_confidence self) = Ok rule_table ->
        exists mined,
          analyze_patterns apriori association_rules self = Ok mined
          /\ frequent_itemsets mined = Some itemsets
          /\ rules mined = Some rule_table
          /\ onehot_df mined = Some onehot).
Proof.
  intros Ho. unfold analyze_patterns. rewrite Ho. split.
  - intros e.
    destruct (apriori onehot (min_support self) 6%nat) as [itemsets|b] eqn:Ha;
      cbn [from_library bind].
    + destruct (association_rules itemsets (min_confidence self))
        as [rule_table|b] eqn:Hr; cbn [from_library bind].
      * discriminate.
      * intros H. inversion H; subst. exists b. split; [reflexivity|].
        right. exists itemsets. auto.
    + intros H. inversion H; subst. exists b. auto.
  - intros itemsets rule_table Ha Hr. rewrite Ha. cbn [from_library bind].
    rewrite Hr. cbn [from_library bind].
    eexists. split; [reflexivity|]. cbn. auto.
Qed.

Lemma analyze_patterns_only_fails_with_the_library_witness :
  (forall e,
     analyze_patterns Examples.apriori_none Examples.rules_refusing_empty
       Examples.loaded_empty = Err e ->
     exists b, e = Raised b
       /\ (Examples.apriori_none [] (min_support Examples.loaded_empty) 6%nat
           = Err b
           \/ exists itemsets,
                Examples.apriori_none [] (min_support Examples.loaded_empty)
                  6%nat = Ok itemsets
                /\ Examples.rules_refusing_empty itemsets
                     (min_confidence Examples.loaded_empty) = Err b))
  /\ (forall itemsets rule_table,
        Examples.apriori_none [] (min_support Examples.loaded_empty) 6%nat
        = Ok itemsets ->
        Examples.rules_refusing_empty itemsets
          (min_confidence Examples.loaded_empty) = Ok rule_table ->
        exists mined,
          analyze_patterns Examples.apriori_none Examples.rules_refusing_empty
            Examples.loaded_empty = Ok mined
          /\ frequent_itemsets mined = Some itemsets
          /\ rules mined = Some rule_table
          /\ onehot_df mined = Some []).
Proof.
  apply (analyze_patterns_only_fails_with_the_library
           Examples.apriori_none Examples.rules_refusing_empty
           Examples.loaded_empty []).
  reflexivity.
Defined.

(** C3 as stated fails: on a table without rows the outcome is the library's.
    With a rule generator that refuses an empty itemset table the run stops
    on its ValueError; with one that accepts it, empty itemsets and rules are
    stored silently.  Neither is InsufficientDataError. *)
Lemma zero_rows_raise_no_insufficient_data_error :
  onehot_df Examples.loaded_empty = Some []
  /\ analyze_patterns Examples.apriori_none Examples.rules_refusing_empty
       Examples.loaded_empty
     = Err (Raised ValueError)
  /\ analyze_patterns Examples.apriori_none Examples.rules_none
       Examples.loaded_empty
     = Ok (mkAnalyzer "lotofacil.csv" default_min_support
             default_min_confidence (Some []) (Some []) (Some []) (Some [])
             None)
  /\ analyze_patterns Examples.apriori_none Examples.rules_none
       Examples.loaded_empty
     <> Err (SpecError InsufficientDataError).
Proof. repeat split; try reflexivity. discriminate. Qed.

(** C5, as amended.  The caller sets [min_support] and [min_confidence], and
    nothing else: the constructor stores them, [analyze_patterns] hands
    exactly these two values to the miner and to the rule generator and
    always asks the miner for itemsets of at most 6 numbers, and the scores
    are those of a recent window of 10 rows. *)
Theorem only_the_two_thresholds_are_settable
  (apriori : Matrix -> Q -> nat -> result builtin_exception (list Itemset))
  (association_rules :
     list Itemset -> Q -> result builtin_exception (list Rule))
  (self : LotofacilAnalyzer) (onehot : Matrix) (rule_table : list Rule) :
  is_onehot onehot = true ->
  onehot <> [] ->
  forallb rule_ok rule_table = true ->
  (forall arquivo_csv s c,
     exists built,
       __init__ arquivo_csv s c = Ok built
       /\ min_support built = s /\ min_confidence built = c)
  /\ analyze_patterns apriori association_rules self
     = analyze_patterns
         (fun m _ _ => apriori m (min_support self) 6%nat)
         (fun itemsets _ => association_rules itemsets (min_confidence self))
         self
  /\ exists number_scores,
       compute_number_scores onehot rule_table = Ok number_scores
       /\ forall n s, In (n, s) number_scores ->
            (s == final_score_with 10 onehot rule_table n)%Q.
Proof.
  intros Hm Hne Hr. split; [|split].
  - intros arquivo_csv s c. eexists. split; [reflexivity|]. cbn. auto.
  - reflexivity.
  - destruct (scores_are_weighted_sums onehot rule_table Hm Hr)
      as [number_scores [Hc Hs]].
    exists number_scores. split; [exact Hc|exact Hs].
Qed.

Lemma only_the_two_thresholds_are_settable_witness :
  (forall arquivo_csv s c,
     exists built,
       __init__ arquivo_csv s c = Ok built
       /\ min_support built = s /\ min_confidence built = c)
  /\ analyze_patterns Examples.apriori_none Examples.rules_none
       (Examples.scored_two_draws [])
     = analyze_patterns
         (fun m _ _ =>
            Examples.apriori_none m
              (min_support (Examples.scored_two_draws [])) 6%nat)
         (fun itemsets _ =>
            Examples.rules_none itemsets
              (min_confidence (Examples.scored_two_draws [])))
         (Examples.scored_two_draws [])
  /\ exists number_scores,
       compute_number_scores Examples.two_draws_onehot Examples.pair_rules
       = Ok number_scores
       /\ forall n s, In (n, s) number_scores ->
            (s == final_score_with 10 Examples.two_draws_onehot
                    Examples.pair_rules n)%Q.
Proof.
  apply (only_the_two_thresholds_are_settable
           Examples.apriori_none Examples.rules_none
           (Examples.scored_two_draws []) Examples.two_draws_onehot
           Examples.pair_rules);
    [reflexivity | discriminate | reflexivity].
Defined.

(** C5 as stated fails for the recent window: number 1 is drawn in the first
    of eleven rows only, so a window of 11 rows would score it
    0.3/11 + 0.3/11, and the scorer gives 0.3/11, the score of a window of
    10. *)
Lemma recent_window_of_11_is_not_honoured :
  length Examples.eleven_rows = 11%nat
  /\ exists number_scores s,
       compute_number_scores Examples.eleven_rows [] = Ok number_scores
       /\ In (1, s) number_scores
       /\ (s == 3 # 110)%Q
       /\ (final_score_with 11 Examples.eleven_rows [] 1 == 6 # 110)%Q
       /\ ~ (s == final_score_with 11 Examples.eleven_rows [] 1)%Q.
Proof.
  split; [reflexivity|].
  eexists. eexists. split; [reflexivity|].
  split; [left; reflexivity|].
  split; [vm_compute; reflexivity|].
  split; [vm_compute; reflexivity|].
  vm_compute. discriminate.
Qed.

(** ** Pattern statistics *)

Lemma four_cells (x1 x2 x3 x4 y1 y2 y3 y4 : Z) :
  x1 = y1 -> x2 = y2 -> x3 = y3 -> x4 = y4 ->
  [x1; x2; x3; x4] = [y1; y2; y3; y4].
Proof. intros; subst; reflexivity. Qed.

Lemma quadrant_loop numeros : forall a b c d,
  fold_left (fun quadrantes n =>
               if n <=? 6 then bump 0 quadrantes
               else if n <=? 12 then bump 1 quadrantes
               else if n <=? 18 then bump 2 quadrantes
               else bump 3 quadrantes)
            numeros [a; b; c; d]
  = map (fun '(q, start) =>
           start + Z.of_nat (length (filter
                     (fun n => (quadrant_index n =? q)%nat) numeros)))
        [(0%nat, a); (1%nat, b); (2%nat, c); (3%nat, d)].
Proof.
  induction numeros as [|n numeros IH]; intros a b c d.
  - cbn. now rewrite !Z.add_0_r.
  - cbn [fold_left].
    assert (Hq : quadrant_index n
                 = if n <=? 6 then 0%nat else if n <=? 12 then 1%nat
                   else if n <=? 18 then 2%nat else 3%nat) by reflexivity.
    destruct (n <=? 6); [|destruct (n <=? 12); [|destruct (n <=? 18)]];
      cbv iota in Hq; unfold bump; cbn [set_cell nth]; rewrite IH;
      cbn [map filter]; rewrite Hq; cbn [Nat.eqb length];
      apply four_cells; lia.
Qed.

Lemma quadrant_index_in_range q n :
  in_range n = true -> (q < 4)%nat ->
  in_quadrant q n = (quadrant_index n =? q)%nat.
Proof.
  unfold in_range, quadrant_index. intros Hn Hq.
  destruct q as [|[|[|[|q]]]]; [| | | |lia]; cbn [in_quadrant];
    destruct (Z.leb_spec n 6); destruct (Z.leb_spec n 12);
    destruct (Z.leb_spec n 18); cbn [Nat.eqb]; lia.
Qed.

Lemma filter_ext_in_range (p p' : Z -> bool) numeros :
  forallb in_range numeros = true ->
  (forall n, in_range n = true -> p n = p' n) ->
  filter p numeros = filter p' numeros.
Proof.
  intros Hr Hp. induction numeros as [|n numeros IH]; [reflexivity|].
  cbn [forallb] in Hr. apply andb_true_iff in Hr. destruct Hr as [Hn Hr].
  cbn [filter]. rewrite (Hp n Hn), (IH Hr). reflexivity.
Qed.

Lemma row_quadrantes_counts numeros :
  forallb in_range numeros = true ->
  row_quadrantes numeros
  = map (fun q => count_in_quadrant q numeros) [0; 1; 2; 3]%nat.
Proof.
  intros Hr. unfold row_quadrantes. change (repeat 0 4) with [0; 0; 0; 0].
  rewrite quadrant_loop. cbn [map]. unfold count_in_quadrant.
  assert (Hq : forall q, (q < 4)%nat ->
            filter (in_quadrant q) numeros
            = filter (fun n => (quadrant_index n =? q)%nat) numeros).
  { intros q Hlt. apply filter_ext_in_range; [exact Hr|].
    intros n Hn. now apply quadrant_index_in_range. }
  rewrite (Hq 0%nat), (Hq 1%nat), (Hq 2%nat), (Hq 3%nat) by lia.
  reflexivity.
Qed.

Lemma analyze_rows_quadrantes rows : forall acc,
  quadrantes
    (fold_left (fun results numeros =>
                  let pares := row_pares numeros in
                  {| pares_impares :=
                       pares_impares results ++ [(pares, 15 - pares)];
                     soma_total := soma_total results ++ [row_soma numeros];
                     quadrantes :=
                       quadrantes results ++ [row_quadrantes numeros] |})
               rows acc)
  = quadrantes acc ++ map row_quadrantes rows.
Proof.
  induction rows as [|numeros rows IH]; intros acc; cbn [fold_left map].
  - now rewrite app_nil_r.
  - rewrite IH. cbn [quadrantes]. now rewrite <- app_assoc.
Qed.

(** C9.  For draws of numbers in 1..25 the quadrant statistic of each draw
    counts its numbers in 1..6, 7..12, 13..18 and 19..25, in this order; the
    draw 1..15 gives [6; 6; 3; 0], and the four ranges hold 6, 6, 6 and 7 of
    the 25 numbers. *)
Theorem quadrant_statistic (self : LotofacilAnalyzer) (rows : DataFrame) :
  df self = Some rows ->
  forallb (forallb in_range) rows = true ->
  (exists results,
     analyze_number_patterns self = Ok results
     /\ quadrantes results
        = map (fun numeros =>
                 map (fun q => count_in_quadrant q numeros) [0; 1; 2; 3]%nat)
              rows)
  /\ row_quadrantes [1; 2; 3; 4; 5; 6; 7; 8; 9; 10; 11; 12; 13; 14; 15]
     = [6; 6; 3; 0]
  /\ map (fun q => count_in_quadrant q keys) [0; 1; 2; 3]%nat = [6; 6; 6; 7].
Proof.
  intros Hdf Hr. split; [|split; reflexivity].
  unfold analyze_number_patterns. rewrite Hdf.
  eexists. split; [reflexivity|].
  unfold analyze_rows. rewrite analyze_rows_quadrantes. cbn [quadrantes app].
  apply map_ext_in. intros numeros Hin.
  apply row_quadrantes_counts.
  rewrite forallb_forall in Hr. now apply Hr.
Qed.

Lemma quadrant_statistic_witness :
  (exists results,
     analyze_number_patterns (Examples.scored_two_draws []) = Ok results
     /\ quadrantes results
        = map (fun numeros =>
                 map (fun q => count_in_quadrant q numeros) [0; 1; 2; 3]%nat)
              Examples.two_draws)
  /\ row_quadrantes [1; 2; 3; 4; 5; 6; 7; 8; 9; 10; 11; 12; 13; 14; 15]
     = [6; 6; 3; 0]
  /\ map (fun q => count_in_quadrant q keys) [0; 1; 2; 3]%nat = [6; 6; 6; 7].
Proof.
  apply (quadrant_statistic (Examples.scored_two_draws []) Examples.two_draws);
    reflexivity.
Defined.

(** * Further properties of the code *)

(** ** The encoded table, cell by cell *)

(** Both encoders, on a table numpy can index: the table has one row of 25
    cells per draw, and cell [j] of a row is 1 exactly when the draw holds a
    value [v] with [(v - 1) mod 25 = j] (so a value [v <= 0] sets the cell of
    number [v + 25]); every other cell is 0. *)
Theorem encoded_cells
  (read_csv : string -> result builtin_exception DataFrame)
  (self : LotofacilAnalyzer) (history : DataFrame) :
  read_csv (csv_file self) = Ok history ->
  history_indexable history = true ->
  exists loaded onehot,
    load_and_prepare_data read_csv self = Ok loaded
    /\ onehot_df loaded = Some onehot
    /\ df loaded = Some history
    /\ Transform.create_lotofacil_onehot read_csv (csv_file self) = Ok onehot
    /\ length onehot = length history
    /\ Forall2 (fun row cells =>
                  length cells = 25%nat
                  /\ forall j,
                       nth j cells 0
                       = if existsb
                              (fun v => (Z.to_nat ((v - 1) mod 25) =? j)%nat)
                              row
                         then 1 else 0)
               history onehot.
Proof.
  intros Hcsv Hidx.
  destruct (load_and_prepare_data_closed read_csv self history Hcsv Hidx)
    as [onehot [Henc Hload]].
  eexists. exists onehot. split; [exact Hload|].
  split; [reflexivity|]. split; [reflexivity|]. split; [|split].
  - unfold Transform.create_lotofacil_onehot. rewrite Hcsv.
    cbn [from_library bind]. rewrite encode_rows_closed. exact Henc.
  - now apply mapM_ok_length in Henc.
  - apply mapM_encode_row_rows in Henc.
    apply Forall2_impl with (2 := Henc).
    intros row cells Hrow. now apply encode_row_cells.
Qed.

Lemma encoded_cells_witness :
  exists loaded onehot,
    load_and_prepare_data (Examples.csv_holding [Examples.draw_with_zero])
      Examples.fresh_analyzer = Ok loaded
    /\ onehot_df loaded = Some onehot
    /\ df loaded = Some [Examples.draw_with_zero]
    /\ Transform.create_lotofacil_onehot
         (Examples.csv_holding [Examples.draw_with_zero])
         (csv_file Examples.fresh_analyzer) = Ok onehot
    /\ length onehot = length [Examples.draw_with_zero]
    /\ Forall2 (fun row cells =>
                  length cells = 25%nat
                  /\ forall j,
                       nth j cells 0
                       = if existsb
                              (fun v => (Z.to_nat ((v - 1) mod 25) =? j)%nat)
                              row
                         then 1 else 0)
               [Examples.draw_with_zero] onehot.
Proof.
  apply (encoded_cells (Examples.csv_holding [Examples.draw_with_zero])
           Examples.fresh_analyzer [Examples.draw_with_zero]);
    reflexivity.
Defined.

Lemma sum_cells_nth (cells : list Z) :
  fold_right Z.add 0 cells
  = fold_right Z.add 0 (map (fun j => nth j cells 0) (seq 0 (length cells))).
Proof.
  induction cells as [|c cells IH]; [reflexivity|].
  cbn [length seq map fold_right nth]. f_equal.
  rewrite IH, <- seq_shift, map_map. reflexivity.
Qed.

Lemma sum_indicator (p : nat -> bool) l :
  fold_right Z.add 0 (map (fun j => if p j then 1 else 0) l)
  = Z.of_nat (length (filter p l)).
Proof.
  induction l as [|j l IH]; [reflexivity|].
  cbn [map fold_right filter]. rewrite IH.
  destruct (p j); cbn [length]; lia.
Qed.

Lemma NoDup_nodupb l : nodupb l = true <-> NoDup l.
Proof.
  induction l as [|x l IH]; simpl.
  - split; [constructor|reflexivity].
  - rewrite andb_true_iff, negb_true_iff, IH. split.
    + intros [Hx Hl]. constructor; [|exact Hl].
      intros Hin. apply existsb_eqb_In in Hin. congruence.
    + intros H. inversion H as [|? ? Hx Hl]; subst. split; [|exact Hl].
      destruct (existsb (Z.eqb x) l) eqn:E; [|reflexivity].
      apply existsb_eqb_In in E. contradiction.
Qed.

(** The numbers 1..25 that belong to a duplicate-free list of such numbers
    are as many as the list is long. *)
Lemma count_members row :
  NoDup row -> forallb in_range row = true ->
  length (filter (fun j => existsb (Z.eqb (Z.of_nat j + 1)) row) (seq 0 25))
  = length row.
Proof.
  intros Hnd Hr.
  rewrite <- (length_map (fun j => Z.of_nat j + 1)).
  apply Permutation_length. apply NoDup_Permutation.
  - apply Finite.Injective_map_NoDup.
    + intros i j H. lia.
    + apply NoDup_filter. apply seq_NoDup.
  - exact Hnd.
  - intros n. rewrite in_map_iff. split.
    + intros [j [<- Hj]]. apply filter_In in Hj. destruct Hj as [_ Hj].
      now apply existsb_eqb_In.
    + intros Hn. rewrite forallb_forall in Hr. specialize (Hr n Hn).
      unfold in_range in Hr.
      exists (Z.to_nat (n - 1)). split; [lia|].
      apply filter_In. split; [apply in_seq; lia|].
      apply existsb_eqb_In. now replace (Z.of_nat (Z.to_nat (n - 1)) + 1) with n
        by lia.
Qed.

(** Decoding the encoded table gives the draws back.  For a table of numbers
    in 1..25, a number of 1..25 has its cell set in a row exactly when the
    draw holds it, and a draw without repeated numbers gives a row whose
    cells sum to the number of values drawn (15 for a valid draw). *)
Theorem encoding_round_trip
  (read_csv : string -> result builtin_exception DataFrame)
  (self : LotofacilAnalyzer) (history : DataFrame) :
  read_csv (csv_file self) = Ok history ->
  forallb (forallb in_range) history = true ->
  exists loaded onehot,
    load_and_prepare_data read_csv self = Ok loaded
    /\ onehot_df loaded = Some onehot
    /\ is_onehot onehot = true
    /\ Forall2 (fun row cells =>
                  (forall n, 1 <= n <= 25 ->
                     (appears n cells = true <-> In n row))
                  /\ (NoDup row ->
                      fold_right Z.add 0 cells = Z.of_nat (length row))
                  /\ (valid_draw row = true -> fold_right Z.add 0 cells = 15))
               history onehot.
Proof.
  intros Hcsv Hr.
  assert (Hidx : history_indexable history = true).
  { unfold history_indexable. rewrite forallb_forall in *. intros row Hrow.
    specialize (Hr row Hrow). rewrite forallb_forall in *. intros v Hv.
    specialize (Hr v Hv). unfold in_range in Hr. unfold indexable. lia. }
  destruct (load_and_prepare_data_closed read_csv self history Hcsv Hidx)
    as [onehot [Henc Hload]].
  eexists. exists onehot. split; [exact Hload|]. split; [reflexivity|].
  split; [now apply (encoded_is_onehot history)|].
  apply mapM_encode_row_rows in Henc.
  clear Hcsv Hload Hidx.
  induction Henc as [|row cells history onehot Hrow _ IH]; [constructor|].
  cbn [forallb] in Hr. apply andb_true_iff in Hr. destruct Hr as [Hrow_r Hr].
  constructor; [|now apply IH].
  assert (Hsum : NoDup row -> fold_right Z.add 0 cells = Z.of_nat (length row)).
  { intros Hnd. destruct (encode_row_cells _ _ Hrow) as [Hlen Hnth].
    rewrite sum_cells_nth, Hlen.
    rewrite (map_ext_in _
               (fun j => if existsb (Z.eqb (Z.of_nat j + 1)) row
                         then 1 else 0)).
    - rewrite sum_indicator. now rewrite count_members.
    - intros j Hj. apply in_seq in Hj.
      pose proof (appears_encoded row cells (Z.of_nat j + 1) Hrow Hrow_r
                    ltac:(lia)) as Ha.
      unfold appears in Ha.
      replace (Z.to_nat (Z.of_nat j + 1 - 1)) with j in Ha by lia.
      rewrite Hnth in *.
      destruct (existsb (fun v => (Z.to_nat ((v - 1) mod 25) =? j)%nat) row);
        cbn in Ha; now rewrite <- Ha. }
  split; [|split].
  - intros n Hn. rewrite (appears_encoded row cells n Hrow Hrow_r Hn).
    apply existsb_eqb_In.
  - exact Hsum.
  - intros Hv. unfold valid_draw in Hv.
    apply andb_true_iff in Hv. destruct Hv as [Hv _].
    apply andb_true_iff in Hv. destruct Hv as [Hl Hnd].
    apply Nat.eqb_eq in Hl. apply NoDup_nodupb in Hnd.
    rewrite (Hsum Hnd), Hl. reflexivity.
Qed.

Lemma encoding_round_trip_witness :
  exists loaded onehot,
    load_and_prepare_data (Examples.csv_holding Examples.two_draws)
      Examples.fresh_analyzer = Ok loaded
    /\ onehot_df loaded = Some onehot
    /\ is_onehot onehot = true
    /\ Forall2 (fun row cells =>
                  (forall n, 1 <= n <= 25 ->
                     (appears n cells = true <-> In n row))
                  /\ (NoDup row ->
                      fold_right Z.add 0 cells = Z.of_nat (length row))
                  /\ (valid_draw row = true -> fold_right Z.add 0 cells = 15))
               Examples.two_draws onehot.
Proof.
  apply (encoding_round_trip (Examples.csv_holding Examples.two_draws)
           Examples.fresh_analyzer Examples.two_draws);
    reflexivity.
Defined.

(** ** Encoding a table that is already one-hot *)

Lemma existsb_bits row :
  (forall v, In v row -> v = 0 \/ v = 1) ->
  forall j,
    existsb (fun v => (Z.to_nat ((v - 1) mod 25) =? j)%nat) row
    = (existsb (Z.eqb 1) row && (j =? 0)%nat)
      || (existsb (Z.eqb 0) row && (j =? 24)%nat).
Proof.
  intros Hbits j. induction row as [|v row IH]; [reflexivity|].
  cbn [existsb]. rewrite IH by (intros w Hw; apply Hbits; now right).
  destruct (Hbits v (or_introl eq_refl)) as [-> | ->].
  - change (Z.to_nat ((0 - 1) mod 25)) with 24%nat.
    change (1 =? 0) with false. change (0 =? 0) with true.
    rewrite (Nat.eqb_sym 24 j).
    destruct (existsb (Z.eqb 1) row), (existsb (Z.eqb 0) row),
      (j =? 0)%nat, (j =? 24)%nat; reflexivity.
  - change (Z.to_nat ((1 - 1) mod 25)) with 0%nat.
    change (1 =? 1) with true. change (0 =? 1) with false.
    rewrite (Nat.eqb_sym 0 j).
    destruct (existsb (Z.eqb 1) row), (existsb (Z.eqb 0) row),
      (j =? 0)%nat, (j =? 24)%nat; reflexivity.
Qed.

(** The analyser encodes whatever table it reads.  On a table of 0/1 cells
    (the format [create_lotofacil_onehot] produces) a 1 is read as number 1
    and a 0 as index -1: every encoded row has the cell of num_1 set exactly
    when the row holds a 1, the cell of num_25 set exactly when it holds a 0,
    and all the cells between them 0. *)
Theorem encoding_a_onehot_table
  (read_csv : string -> result builtin_exception DataFrame)
  (self : LotofacilAnalyzer) (onehot_table : Matrix) :
  read_csv (csv_file self) = Ok onehot_table ->
  is_onehot onehot_table = true ->
  exists loaded onehot,
    load_and_prepare_data read_csv self = Ok loaded
    /\ onehot_df loaded = Some onehot
    /\ Forall2 (fun row cells =>
                  nth 0 cells 0 = (if existsb (Z.eqb 1) row then 1 else 0)
                  /\ nth 24 cells 0 = (if existsb (Z.eqb 0) row then 1 else 0)
                  /\ forall j, (0 < j < 24)%nat -> nth j cells 0 = 0)
               onehot_table onehot.
Proof.
  intros Hcsv Hoh.
  assert (Hbits : forall row, In row onehot_table ->
            forall v, In v row -> v = 0 \/ v = 1).
  { unfold is_onehot in Hoh. rewrite forallb_forall in Hoh.
    intros row Hrow v Hv. specialize (Hoh row Hrow).
    apply andb_true_iff in Hoh. destruct Hoh as [_ Hc].
    rewrite forallb_forall in Hc. specialize (Hc v Hv).
    apply orb_true_iff in Hc. destruct Hc as [Hc|Hc];
      apply Z.eqb_eq in Hc; auto. }
  assert (Hidx : history_indexable onehot_table = true).
  { unfold history_indexable. apply forallb_forall. intros row Hrow.
    apply forallb_forall. intros v Hv.
    destruct (Hbits row Hrow v Hv) as [-> | ->]; reflexivity. }
  destruct (load_and_prepare_data_closed read_csv self onehot_table Hcsv Hidx)
    as [onehot [Henc Hload]].
  eexists. exists onehot. split; [exact Hload|]. split; [reflexivity|].
  apply mapM_encode_row_rows in Henc.
  clear Hcsv Hload Hidx Hoh.
  induction Henc as [|row cells rest onehot Hrow _ IH]; [constructor|].
  constructor; [|apply IH; intros r Hr; apply Hbits; now right].
  destruct (encode_row_cells _ _ Hrow) as [_ Hnth].
  assert (Hrow_bits : forall v, In v row -> v = 0 \/ v = 1)
    by (apply Hbits; now left).
  pose proof (existsb_bits row Hrow_bits) as Hex.
  split; [|split].
  - rewrite Hnth, Hex. cbn. now rewrite andb_true_r, andb_false_r, orb_false_r.
  - rewrite Hnth, Hex. cbn. now rewrite andb_true_r, andb_false_r.
  - intros j Hj. rewrite Hnth, Hex.
    destruct (Nat.eqb_spec j 0); [lia|]. destruct (Nat.eqb_spec j 24); [lia|].
    now rewrite !andb_false_r.
Qed.

Lemma encoding_a_onehot_table_witness :
  exists loaded onehot,
    load_and_prepare_data (Examples.csv_holding Examples.two_draws_onehot)
      Examples.fresh_analyzer = Ok loaded
    /\ onehot_df loaded = Some onehot
    /\ Forall2 (fun row cells =>
                  nth 0 cells 0 = (if existsb (Z.eqb 1) row then 1 else 0)
                  /\ nth 24 cells 0 = (if existsb (Z.eqb 0) row then 1 else 0)
                  /\ forall j, (0 < j < 24)%nat -> nth j cells 0 = 0)
               Examples.two_draws_onehot onehot.
Proof.
  apply (encoding_a_onehot_table
           (Examples.csv_holding Examples.two_draws_onehot)
           Examples.fresh_analyzer Examples.two_draws_onehot);
    reflexivity.
Defined.

(** ** Rules over labels that are not columns *)

Lemma dict_add_missing ks f k v :
  ~ In k ks -> dict_add (table ks f) k v = Err (Raised KeyError).
Proof.
  induction ks as [|a ks IH]; intros Hk; [reflexivity|].
  cbn [table map dict_add].
  destruct (Z.eqb_spec a k) as [->|Hne]; [exfalso; apply Hk; now left|].
  fold (table ks f). rewrite IH; [reflexivity|].
  intros Hin. apply Hk. now right.
Qed.

Lemma in_range_keys k : in_range k = true <-> In k keys.
Proof. rewrite in_keys. unfold in_range. lia. Qed.

Lemma foldM_dict_add_keys kvs : forall f,
  foldM (fun d kv => dict_add d (fst kv) (snd kv)) (table keys f) kvs
  = if forallb (fun kv => in_range (fst kv)) kvs
    then Ok (table keys (accumulate f kvs))
    else Err (Raised KeyError).
Proof.
  induction kvs as [|kv kvs IH]; intros f; [reflexivity|].
  cbn [foldM forallb].
  destruct (in_range (fst kv)) eqn:Hk.
  - rewrite dict_add_table by (auto using NoDup_keys; now apply in_range_keys).
    cbn [bind andb]. now rewrite IH.
  - rewrite dict_add_missing; [reflexivity|].
    intros Hin. apply in_range_keys in Hin. congruence.
Qed.

Lemma foldM_rules_keys rule_table : forall f,
  foldM (fun d rule =>
           let ant_nums := extract_numbers_from_frozenset (antecedents rule) in
           let cons_nums := extract_numbers_from_frozenset (consequents rule) in
           let score := (confidence rule * support rule * (4 # 10))%Q in
           foldM (fun d' num => dict_add d' num score) d
                 (ant_nums ++ cons_nums))
        (table keys f) rule_table
  = if forallb rule_in_columns rule_table
    then Ok (table keys
               (fold_left (fun g r => accumulate g (rule_updates r))
                  rule_table f))
    else Err (Raised KeyError).
Proof.
  induction rule_table as [|r rs IH]; intros f; [reflexivity|].
  cbn [foldM fold_left forallb]. cbv zeta.
  rewrite (foldM_map (fun d kv => dict_add d (fst kv) (snd kv))
             (fun num => (num, (confidence r * support r * (4 # 10))%Q))).
  fold (rule_numbers r). fold (rule_updates r).
  rewrite foldM_dict_add_keys.
  unfold rule_updates at 1. rewrite forallb_map_pred. cbn [fst].
  change (forallb (fun a => in_range a) (rule_numbers r))
    with (forallb in_range (rule_numbers r)).
  rewrite <- rule_in_columns_extracted.
  destruct (rule_in_columns r); [|reflexivity].
  cbn [bind andb]. apply IH.
Qed.

Lemma compute_number_scores_keys m rule_table :
  compute_number_scores m rule_table
  = if forallb rule_in_columns rule_table
    then Ok (table keys (score_fun m rule_table))
    else Err (Raised KeyError).
Proof.
  destruct (forallb rule_in_columns rule_table) eqn:Hok.
  - now apply compute_number_scores_closed.
  - unfold compute_number_scores. cbv zeta.
    change (map (fun i => (Z.of_nat i + 1, 0%Q)) (seq 0 25))
      with (table keys (fun _ => 0%Q)).
    rewrite (foldM_map (fun d kv => dict_add d (fst kv) (snd kv))
               (fun i => (Z.of_nat i + 1, (frequency m i * (3 # 10))%Q))).
    fold (frequency_updates m).
    rewrite foldM_dict_add
      by (auto using NoDup_keys; intros;
          now apply (frequency_updates_in_keys m)).
    cbn [bind]. rewrite foldM_rules_keys, Hok. reflexivity.
Qed.

(** The scorer succeeds exactly when every label of every rule is one of the
    25 columns.  A rule over any other label stops it with KeyError, raised
    by [number_scores[num] += score], and no recommendation is stored. *)
Theorem calculate_recommendations_key_error
  (self : LotofacilAnalyzer) (onehot : Matrix) (rule_table : list Rule) :
  onehot_df self = Some onehot ->
  rules self = Some rule_table ->
  is_ok (calculate_recommendations self) = forallb rule_in_columns rule_table
  /\ (forallb rule_in_columns rule_table = false ->
      calculate_recommendations self = Err (Raised KeyError)).
Proof.
  intros Ho Hr. unfold calculate_recommendations. rewrite Ho, Hr.
  rewrite compute_number_scores_keys.
  destruct (forallb rule_in_columns rule_table); cbn [bind is_ok].
  - split; [reflexivity|discriminate].
  - split; reflexivity.
Qed.

Lemma calculate_recommendations_key_error_witness :
  is_ok (calculate_recommendations
           (Examples.scored_two_draws [Examples.rule_on_num_26]))
  = forallb rule_in_columns [Examples.rule_on_num_26]
  /\ (forallb rule_in_columns [Examples.rule_on_num_26] = false ->
      calculate_recommendations
        (Examples.scored_two_draws [Examples.rule_on_num_26])
      = Err (Raised KeyError)).
Proof.
  apply (calculate_recommendations_key_error
           (Examples.scored_two_draws [Examples.rule_on_num_26])
           Examples.two_draws_onehot [Examples.rule_on_num_26]);
    reflexivity.
Defined.

(** ** Histories of at most 10 draws *)

(** With at most 10 rows the recent rows are all the rows, without any
    error: the recent-trend term repeats the base frequency, and the score of
    [n] is 0.6 x (fraction of the rows in which n appears) + 0.4 x (rule
    strength of n). *)
Theorem short_history_scores (onehot : Matrix) (rule_table : list Rule) :
  is_onehot onehot = true ->
  onehot <> [] ->
  (length onehot <= 10)%nat ->
  forallb rule_ok rule_table = true ->
  iloc_last 10 onehot = onehot
  /\ exists number_scores,
       compute_number_scores onehot rule_table = Ok number_scores
       /\ forall n s, In (n, s) number_scores ->
            (s == (6 # 10) * fraction_of_appearances onehot n
                  + (4 # 10) * rule_strength rule_table n)%Q.
Proof.
  intros Hm _ Hlen Hr.
  assert (Hlast : iloc_last 10 onehot = onehot).
  { unfold iloc_last. replace (length onehot - 10)%nat with 0%nat by lia.
    reflexivity. }
  split; [exact Hlast|].
  destruct (scores_are_weighted_sums onehot rule_table Hm Hr)
    as [number_scores [Hc Hs]].
  exists number_scores. split; [exact Hc|].
  intros n s Hin. rewrite (Hs n s Hin).
  unfold final_score, final_score_with.
  rewrite <- iloc_last_is_last_rows, Hlast. ring.
Qed.

Lemma short_history_scores_witness :
  iloc_last 10 Examples.two_draws_onehot = Examples.two_draws_onehot
  /\ exists number_scores,
       compute_number_scores Examples.two_draws_onehot Examples.pair_rules
       = Ok number_scores
       /\ forall n s, In (n, s) number_scores ->
            (s == (6 # 10) * fraction_of_appearances
                               Examples.two_draws_onehot n
                  + (4 # 10) * rule_strength Examples.pair_rules n)%Q.
Proof.
  apply (short_history_scores Examples.two_draws_onehot Examples.pair_rules);
    [reflexivity | discriminate | cbn; lia | reflexivity].
Defined.

(** ** The scorer over an arithmetic *)

Section ScoringOverArithmetic.

Variable A : Scoring.arithmetic.

Lemma map_fst_table_in ks (f : Z -> Scoring.number A) :
  map fst (table_in A ks f) = ks.
Proof.
  unfold table_in. rewrite map_map. simpl. apply map_id.
Qed.

Lemma dict_add_table_in ks (f : Z -> Scoring.number A) k v :
  NoDup ks -> In k ks ->
  Scoring.dict_add A (table_in A ks f) k v
  = Ok (table_in A ks (add_at_in A k v f)).
Proof.
  induction ks as [|a ks IH]; intros Hnd Hin; [destruct Hin|].
  inversion Hnd as [|? ? Hnotin Hnd']; subst.
  cbn [table_in map Scoring.dict_add]. unfold add_at_in at 1.
  destruct (Z.eqb_spec a k) as [->|Hne].
  - do 2 f_equal. apply map_ext_in. intros n Hn. unfold add_at_in.
    destruct (Z.eqb_spec n k) as [->|_]; [contradiction|reflexivity].
  - destruct Hin as [Heq|Hin]; [contradiction|].
    fold (table_in A ks f). rewrite (IH Hnd' Hin). reflexivity.
Qed.

Lemma foldM_dict_add_in ks kvs : forall f,
  NoDup ks -> (forall kv, In kv kvs -> In (fst kv) ks) ->
  foldM (fun d kv => Scoring.dict_add A d (fst kv) (snd kv))
        (table_in A ks f) kvs
  = Ok (table_in A ks (accumulate_in A f kvs)).
Proof.
  induction kvs as [|kv kvs IH]; intros f Hnd Hin; [reflexivity|].
  cbn [foldM]. rewrite dict_add_table_in by (auto; apply Hin; now left).
  cbn [bind]. rewrite IH by (auto; intros; apply Hin; now right).
  reflexivity.
Qed.

Lemma rule_ok_in_numbers r :
  rule_ok_in A r = true ->
  forallb in_range (rule_numbers_in A r) = true
  /\ nodupb (rule_numbers_in A r) = true.
Proof.
  unfold rule_ok_in, rule_numbers_in. intros H.
  apply andb_true_iff in H. destruct H as [Hc Hd].
  rewrite in_columns_extracted, extracted_app in Hc.
  rewrite distinct_extracted, extracted_app in Hd. auto.
Qed.

Lemma rule_updates_in_keys_in r kv :
  rule_ok_in A r = true -> In kv (rule_updates_in A r) -> In (fst kv) keys.
Proof.
  intros Hok Hin. destruct (rule_ok_in_numbers r Hok) as [Hr _].
  unfold rule_updates_in in Hin. apply in_map_iff in Hin.
  destruct Hin as [n [<- Hn]]. cbn [fst]. apply in_range_keys.
  rewrite forallb_forall in Hr. now apply Hr.
Qed.

Lemma frequency_updates_in_keys_in m kv :
  In kv (frequency_updates_in A m) -> In (fst kv) keys.
Proof.
  unfold frequency_updates_in. intros Hin. apply in_map_iff in Hin.
  destruct Hin as [i [<- Hi]]. cbn [fst]. apply in_keys.
  apply in_seq in Hi. lia.
Qed.

Lemma foldM_rules_in rule_table : forall f,
  forallb (rule_ok_in A) rule_table = true ->
  foldM (fun d rule =>
           let ant_nums :=
             extract_numbers_from_frozenset (Scoring.antecedents rule) in
           let cons_nums :=
             extract_numbers_from_frozenset (Scoring.consequents rule) in
           let score :=
             Scoring.mul A
               (Scoring.mul A (Scoring.confidence rule) (Scoring.support rule))
               (Scoring.four_tenths A) in
           foldM (fun d' num => Scoring.dict_add A d' num score) d
                 (ant_nums ++ cons_nums))
        (table_in A keys f) rule_table
  = Ok (table_in A keys
          (fold_left (fun g r => accumulate_in A g (rule_updates_in A r))
                     rule_table f)).
Proof.
  induction rule_table as [|r rs IH]; intros f Hok; [reflexivity|].
  cbn [forallb] in Hok. apply andb_true_iff in Hok. destruct Hok as [Hr Hrs].
  cbn [foldM fold_left]. cbv zeta.
  rewrite (foldM_map (fun d kv => Scoring.dict_add A d (fst kv) (snd kv))
             (fun num => (num, rule_score_in A r))).
  fold (rule_numbers_in A r). fold (rule_updates_in A r).
  rewrite foldM_dict_add_in
    by (auto using NoDup_keys; intros; now apply (rule_updates_in_keys_in r)).
  cbn [bind]. now apply IH.
Qed.

Lemma compute_number_scores_in_closed m rule_table :
  forallb (rule_ok_in A) rule_table = true ->
  Scoring.compute_number_scores A m rule_table
  = Ok (table_in A keys (score_fun_in A m rule_table)).
Proof.
  intros Hok. unfold Scoring.compute_number_scores. cbv zeta.
  change (map (fun i => (Z.of_nat i + 1, Scoring.of_int A 0)) (seq 0 25))
    with (table_in A keys (fun _ => Scoring.of_int A 0)).
  rewrite (foldM_map (fun d kv => Scoring.dict_add A d (fst kv) (snd kv))
             (fun i => (Z.of_nat i + 1,
                        Scoring.mul A (Scoring.frequency A m i)
                                      (Scoring.three_tenths A)))).
  fold (frequency_updates_in A m).
  rewrite foldM_dict_add_in
    by (auto using NoDup_keys; intros;
        now apply (frequency_updates_in_keys_in m)).
  cbn [bind]. rewrite foldM_rules_in by exact Hok. cbn [bind].
  rewrite (foldM_map (fun d kv => Scoring.dict_add A d (fst kv) (snd kv))
             (fun i => (Z.of_nat i + 1,
                        Scoring.mul A
                          (Scoring.frequency A (iloc_last 10 m) i)
                          (Scoring.three_tenths A)))).
  fold (frequency_updates_in A (iloc_last 10 m)).
  rewrite foldM_dict_add_in
    by (auto using NoDup_keys; intros;
        now apply (frequency_updates_in_keys_in (iloc_last 10 m))).
  reflexivity.
Qed.

(** *** The value held at a key *)

Lemma accumulate_in_at kvs : forall f n,
  accumulate_in A f kvs n = updated_at A n kvs (f n).
Proof.
  induction kvs as [|kv kvs IH]; intros f n; [reflexivity|].
  change (accumulate_in A f (kv :: kvs) n)
    with (accumulate_in A (add_at_in A (fst kv) (snd kv) f) kvs n).
  rewrite IH. reflexivity.
Qed.

Lemma updated_at_cons n kv kvs a :
  updated_at A n (kv :: kvs) a
  = updated_at A n kvs
      (if n =? fst kv then Scoring.add A a (snd kv) else a).
Proof. reflexivity. Qed.

Lemma updated_at_seq (g : nat -> Scoring.number A) n len : forall s a,
  updated_at A n (map (fun i => (Z.of_nat i + 1, g i)) (seq s len)) a
  = if (Z.of_nat s + 1 <=? n) && (n <=? Z.of_nat s + Z.of_nat len)
    then Scoring.add A a (g (Z.to_nat (n - 1))) else a.
Proof.
  induction len as [|len IH]; intros s a.
  - cbn [seq map updated_at fold_left].
    destruct (Z.leb_spec (Z.of_nat s + 1) n);
      destruct (Z.leb_spec n (Z.of_nat s + Z.of_nat 0)); simpl;
      try reflexivity; lia.
  - cbn [seq map]. rewrite updated_at_cons, IH. cbn [fst snd].
    destruct (Z.eqb_spec n (Z.of_nat s + 1)) as [->|Hne].
    + replace (Z.to_nat (Z.of_nat s + 1 - 1)) with s by lia.
      destruct (Z.leb_spec (Z.of_nat (S s) + 1) (Z.of_nat s + 1)); [lia|].
      destruct (Z.leb_spec (Z.of_nat s + 1) (Z.of_nat s + 1)); [|lia].
      destruct (Z.leb_spec (Z.of_nat s + 1) (Z.of_nat s + Z.of_nat (S len)));
        [|lia].
      reflexivity.
    + destruct (Z.leb_spec (Z.of_nat (S s) + 1) n);
        destruct (Z.leb_spec n (Z.of_nat (S s) + Z.of_nat len));
        destruct (Z.leb_spec (Z.of_nat s + 1) n);
        destruct (Z.leb_spec n (Z.of_nat s + Z.of_nat (S len)));
        simpl; try reflexivity; lia.
Qed.

Lemma updated_at_frequency m n a :
  1 <= n <= 25 ->
  updated_at A n (frequency_updates_in A m) a
  = Scoring.add A a
      (Scoring.mul A (Scoring.frequency A m (Z.to_nat (n - 1)))
                     (Scoring.three_tenths A)).
Proof.
  intros Hn. unfold frequency_updates_in.
  rewrite (updated_at_seq
             (fun i => Scoring.mul A (Scoring.frequency A m i)
                                     (Scoring.three_tenths A)) n 25 0).
  destruct (Z.leb_spec (Z.of_nat 0 + 1) n); [|lia].
  destruct (Z.leb_spec n (Z.of_nat 0 + Z.of_nat 25)); [|lia].
  reflexivity.
Qed.

Lemma updated_at_constant c n nums : forall a,
  nodupb nums = true ->
  updated_at A n (map (fun num => (num, c)) nums) a
  = if existsb (Z.eqb n) nums then Scoring.add A a c else a.
Proof.
  induction nums as [|x nums IH]; intros a Hnd; [reflexivity|].
  apply nodupb_cons in Hnd. destruct Hnd as [Hx Hnd].
  cbn [map existsb]. rewrite updated_at_cons, (IH _ Hnd). cbn [fst snd].
  destruct (Z.eqb_spec n x) as [->|Hne]; simpl.
  - now rewrite Hx.
  - reflexivity.
Qed.

Lemma mentions_in_numbers n r :
  mentions_in A n r = existsb (Z.eqb n) (rule_numbers_in A r).
Proof.
  unfold mentions_in, rule_numbers_in.
  now rewrite existsb_app, !holds_extracted.
Qed.

Lemma fold_rules_in_at rule_table n :
  forallb (rule_ok_in A) rule_table = true ->
  forall f,
    fold_left (fun g r => accumulate_in A g (rule_updates_in A r))
              rule_table f n
    = fold_left (fun s r => Scoring.add A s (rule_score_in A r))
                (filter (mentions_in A n) rule_table) (f n).
Proof.
  induction rule_table as [|r rs IH]; intros Hok f; [reflexivity|].
  cbn [forallb] in Hok. apply andb_true_iff in Hok. destruct Hok as [Hr Hrs].
  cbn [fold_left filter]. rewrite (IH Hrs). rewrite accumulate_in_at.
  unfold rule_updates_in.
  rewrite updated_at_constant by (now apply rule_ok_in_numbers).
  rewrite <- mentions_in_numbers.
  destruct (mentions_in A n r); reflexivity.
Qed.

Lemma frequency_in_fraction m n :
  is_onehot m = true ->
  Scoring.frequency A m (Z.to_nat (n - 1)) = fraction_in A m n.
Proof.
  intros H. unfold Scoring.frequency, fraction_in.
  now rewrite column_sum_count.
Qed.

(** The score the loops leave at key [n] is the final score of [n]. *)
Lemma score_fun_in_formula m rule_table n :
  is_onehot m = true -> forallb (rule_ok_in A) rule_table = true ->
  1 <= n <= 25 ->
  score_fun_in A m rule_table n = final_score_in A m rule_table n.
Proof.
  intros Hm Hr Hn. unfold score_fun_in, final_score_in. cbv zeta.
  rewrite accumulate_in_at, (fold_rules_in_at _ n Hr), accumulate_in_at.
  rewrite !updated_at_frequency by exact Hn.
  rewrite (frequency_in_fraction m n Hm).
  rewrite (frequency_in_fraction (iloc_last 10 m) n)
    by (now apply is_onehot_skipn).
  rewrite iloc_last_is_last_rows. reflexivity.
Qed.

(** *** The final sort *)

Lemma insert_desc_in_perm x l :
  Permutation (Scoring.insert_desc A x l) (x :: l).
Proof.
  induction l as [|y l IH]; simpl; [reflexivity|].
  destruct (Scoring.lt A (snd x) (snd y)); [|reflexivity].
  rewrite IH. apply perm_swap.
Qed.

Lemma sorted_reverse_in_perm l : Permutation (Scoring.sorted_reverse A l) l.
Proof.
  induction l as [|x l IH]; simpl; [reflexivity|].
  rewrite insert_desc_in_perm. now constructor.
Qed.

(** What [ordered_by_lt] says of three scores of the list. *)
Lemma ordered_by_lt_spec scores :
  ordered_by_lt A scores = true ->
  (forall a b, In a scores -> In b scores ->
     Scoring.lt A a b = true -> Scoring.lt A b a = false)
  /\ (forall a b c, In a scores -> In b scores -> In c scores ->
        Scoring.lt A a b = false -> Scoring.lt A b c = false ->
        Scoring.lt A a c = false).
Proof.
  unfold ordered_by_lt. intros H. rewrite forallb_forall in H. split.
  - intros a b Ha Hb Hab. specialize (H a Ha).
    rewrite forallb_forall in H. specialize (H b Hb).
    apply andb_true_iff in H. destruct H as [H _].
    rewrite Hab in H. cbn in H. now apply negb_true_iff.
  - intros a b c Ha Hb Hc Hab Hbc. specialize (H a Ha).
    rewrite forallb_forall in H. specialize (H b Hb).
    apply andb_true_iff in H. destruct H as [_ H].
    rewrite forallb_forall in H. specialize (H c Hc).
    rewrite Hab, Hbc in H. cbn in H. now apply negb_true_iff.
Qed.

Lemma insert_desc_in_sorted scores x l :
  ordered_by_lt A scores = true ->
  In (snd x) scores -> (forall y, In y l -> In (snd y) scores) ->
  StronglySorted (ranked_before_in A) l ->
  (forall y, In y l -> fst x < fst y) ->
  StronglySorted (ranked_before_in A) (Scoring.insert_desc A x l).
Proof.
  intros Hord Hx Hl. destruct (ordered_by_lt_spec _ Hord) as [Hasym Hneg].
  induction l as [|y l IH]; intros Hs Hlt; simpl.
  - repeat constructor.
  - inversion Hs as [|? ? Hs' Hy]; subst.
    assert (Hyin : In (snd y) scores) by (apply Hl; now left).
    destruct (Scoring.lt A (snd x) (snd y)) eqn:Hxy.
    + constructor.
      * apply IH; [intros z Hz; apply Hl; now right|exact Hs'|].
        intros z Hz. apply Hlt. now right.
      * rewrite Forall_forall in *. intros z Hz.
        apply (Permutation_in _ (insert_desc_in_perm x l)) in Hz.
        destruct Hz as [<-|Hz]; [now left|now apply Hy].
    + constructor; [exact Hs|].
      assert (Hxfirst : ranked_before_in A x y).
      { destruct (Scoring.lt A (snd y) (snd x)) eqn:Hyx.
        - now left.
        - right. split; [exact Hxy|]. split; [exact Hyx|].
          apply Hlt. now left. }
      constructor; [exact Hxfirst|].
      rewrite Forall_forall in *. intros z Hz.
      assert (Hzin : In (snd z) scores) by (apply Hl; now right).
      assert (Hyz : Scoring.lt A (snd y) (snd z) = false).
      { destruct (Hy z Hz) as [H|[H _]]; [|exact H].
        now apply Hasym. }
      assert (Hxz : Scoring.lt A (snd x) (snd z) = false)
        by (apply (Hneg _ (snd y)); auto).
      destruct (Scoring.lt A (snd z) (snd x)) eqn:Hzx.
      * now left.
      * right. split; [exact Hxz|]. split; [exact Hzx|].
        apply Hlt. now right.
Qed.

Lemma sorted_reverse_in_sorted scores l :
  ordered_by_lt A scores = true ->
  (forall y, In y l -> In (snd y) scores) ->
  StronglySorted (fun a b => fst a < fst b) l ->
  StronglySorted (ranked_before_in A) (Scoring.sorted_reverse A l).
Proof.
  intros Hord Hl Hs. induction Hs as [|x l Hs IH Hx]; simpl; [constructor|].
  apply (insert_desc_in_sorted scores); auto.
  - apply Hl. now left.
  - intros y Hy. apply Hl. right.
    now apply (Permutation_in _ (sorted_reverse_in_perm l)).
  - apply IH. intros y Hy. apply Hl. now right.
  - rewrite Forall_forall in Hx. intros y Hy. apply Hx.
    now apply (Permutation_in _ (sorted_reverse_in_perm l)).
Qed.

Lemma table_in_ascending (f : Z -> Scoring.number A) len : forall s,
  StronglySorted (fun a b : Z * Scoring.number A => fst a < fst b)
    (table_in A (map (fun i => Z.of_nat i + 1) (seq s len)) f).
Proof.
  induction len as [|len IH]; intros s; cbn [seq map table_in].
  - constructor.
  - constructor; [apply IH|].
    apply Forall_forall. intros y Hy. unfold table_in in Hy.
    rewrite map_map in Hy. apply in_map_iff in Hy.
    destruct Hy as [i [<- Hi]]. apply in_seq in Hi. simpl. lia.
Qed.

(** The ranking of a tabulated score function. *)
Lemma ranking_of_table (f : Z -> Scoring.number A) :
  ordered_by_lt A (map f keys) = true ->
  length (firstn 15 (Scoring.sorted_reverse A (table_in A keys f))) = 15%nat
  /\ Permutation (Scoring.sorted_reverse A (table_in A keys f))
                 (map (fun n => (n, f n)) keys)
  /\ StronglySorted (ranked_before_in A)
       (Scoring.sorted_reverse A (table_in A keys f)).
Proof.
  intros Hord. split; [|split].
  - rewrite length_firstn.
    rewrite (Permutation_length (sorted_reverse_in_perm _)).
    unfold table_in, keys. now rewrite !length_map, length_seq.
  - apply sorted_reverse_in_perm.
  - apply (sorted_reverse_in_sorted (map f keys)); [exact Hord| |].
    + intros y Hy. unfold table_in in Hy. apply in_map_iff in Hy.
      destruct Hy as [k [<- Hk]]. cbn [snd]. now apply in_map.
    + apply (table_in_ascending f 25 0).
Qed.

End ScoringOverArithmetic.

(** C7.  The recommendation is the first 15 entries of the ranking of the 25
    final scores by descending score, two numbers whose scores [<] does not
    tell apart standing in ascending order of the number (the order in which
    the dict enumerates them): the 15 recommended entries followed by the
    other 10 are a rearrangement of the numbers 1..25 with their final
    scores, in which every entry is ranked before every later one.  This
    holds in every arithmetic whose [<] orders the 25 final scores, which
    binary64 does unless a score is NaN. *)
Theorem recommendation_ranks_the_final_scores
  (A : Scoring.arithmetic) (onehot : Matrix)
  (rule_table : list (Scoring.Rule A)) :
  is_onehot onehot = true ->
  forallb (rule_ok_in A) rule_table = true ->
  ordered_by_lt A (map (final_score_in A onehot rule_table) keys) = true ->
  exists recommended others,
    Scoring.calculate_recommendations A onehot rule_table = Ok recommended
    /\ length recommended = 15%nat
    /\ Permutation (recommended ++ others)
         (map (fun n => (n, final_score_in A onehot rule_table n)) keys)
    /\ StronglySorted (ranked_before_in A) (recommended ++ others).
Proof.
  intros Hm Hr Hord.
  assert (Hscores : table_in A keys (score_fun_in A onehot rule_table)
                    = table_in A keys (final_score_in A onehot rule_table)).
  { unfold table_in. apply map_ext_in. intros n Hn. f_equal.
    apply score_fun_in_formula; auto. now apply in_keys. }
  destruct (ranking_of_table A (final_score_in A onehot rule_table) Hord)
    as [Hlen [Hperm Hsorted]].
  remember (Scoring.sorted_reverse A
              (table_in A keys (final_score_in A onehot rule_table)))
    as ranking eqn:Hrk.
  exists (firstn 15 ranking), (skipn 15 ranking).
  rewrite firstn_skipn.
  split; [|split; [exact Hlen|split; [exact Hperm|exact Hsorted]]].
  unfold Scoring.calculate_recommendations.
  rewrite (compute_number_scores_in_closed A onehot rule_table Hr).
  cbn [bind]. rewrite Hscores, Hrk. reflexivity.
Qed.

Lemma recommendation_ranks_the_final_scores_witness :
  exists recommended others,
    Scoring.calculate_recommendations Scoring.binary64
      Examples.two_draws_onehot Examples.two_draws_rules_binary64
    = Ok recommended
    /\ length recommended = 15%nat
    /\ Permutation (recommended ++ others)
         (map (fun n => (n, final_score_in Scoring.binary64
                              Examples.two_draws_onehot
                              Examples.two_draws_rules_binary64 n)) keys)
    /\ StronglySorted (ranked_before_in Scoring.binary64)
         (recommended ++ others).
Proof.
  apply (recommendation_ranks_the_final_scores Scoring.binary64
           Examples.two_draws_onehot Examples.two_draws_rules_binary64);
    vm_compute; reflexivity.
Defined.

(** ** The exact arithmetic is the analyser's *)

Lemma foldM_ext {E S B} (f g : S -> B -> result E S) l :
  (forall a b, f a b = g a b) -> forall a, foldM f a l = foldM g a l.
Proof.
  intros H. induction l as [|b l IH]; intros a; cbn [foldM]; [reflexivity|].
  rewrite H. destruct (g a b); cbn [bind]; auto.
Qed.

Lemma exact_dict_add d k v :
  Scoring.dict_add Scoring.exact d k v = dict_add d k v.
Proof.
  induction d as [|[k' s] d IH]; cbn [Scoring.dict_add dict_add];
    [reflexivity|].
  destruct (k' =? k); [reflexivity|]. now rewrite IH.
Qed.

Lemma exact_insert_desc x l :
  Scoring.insert_desc Scoring.exact x l = insert_desc x l.
Proof.
  induction l as [|y l IH]; cbn [Scoring.insert_desc insert_desc];
    [reflexivity|].
  cbn [Scoring.lt Scoring.exact].
  change (Scoring.number Scoring.exact) with Q in *.
  destruct (Qle_bool (snd y) (snd x)); cbn [negb]; [reflexivity|].
  now rewrite IH.
Qed.

Lemma exact_sorted_reverse l :
  Scoring.sorted_reverse Scoring.exact l = sorted_reverse l.
Proof.
  induction l as [|x l IH]; [reflexivity|].
  cbn [Scoring.sorted_reverse sorted_reverse fold_right].
  fold (Scoring.sorted_reverse Scoring.exact l). fold (sorted_reverse l).
  now rewrite IH, exact_insert_desc.
Qed.

Lemma exact_compute_number_scores m rule_table :
  Scoring.compute_number_scores Scoring.exact m (map in_exact rule_table)
  = compute_number_scores m rule_table.
Proof.
  unfold Scoring.compute_number_scores, compute_number_scores. cbv zeta.
  rewrite (foldM_ext _ (fun d i => dict_add d (Z.of_nat i + 1)
                                     (frequency m i * (3 # 10))%Q))
    by (intros; apply exact_dict_add).
  change (map (fun i => (Z.of_nat i + 1, Scoring.of_int Scoring.exact 0))
              (seq 0 25))
    with (map (fun i => (Z.of_nat i + 1, 0%Q)) (seq 0 25)).
  destruct (foldM _ _ (seq 0 25)) as [d1|e]; cbn [bind]; [|reflexivity].
  rewrite <- (foldM_map
                (fun d rule =>
                   foldM (fun d' num =>
                            Scoring.dict_add Scoring.exact d' num
                              (Scoring.mul Scoring.exact
                                 (Scoring.mul Scoring.exact
                                    (Scoring.confidence rule)
                                    (Scoring.support rule))
                                 (Scoring.four_tenths Scoring.exact))) d
                         (extract_numbers_from_frozenset
                            (Scoring.antecedents rule)
                          ++ extract_numbers_from_frozenset
                               (Scoring.consequents rule)))
                in_exact).
  rewrite (foldM_ext _ (fun d rule =>
             foldM (fun d' num =>
                      dict_add d' num
                        (confidence rule * support rule * (4 # 10))%Q) d
                   (extract_numbers_from_frozenset (antecedents rule)
                    ++ extract_numbers_from_frozenset (consequents rule)))).
  - destruct (foldM _ d1 rule_table) as [d2|e]; cbn [bind]; [|reflexivity].
    apply foldM_ext. intros. apply exact_dict_add.
  - intros d r. cbn [in_exact Scoring.antecedents Scoring.consequents
                     Scoring.confidence Scoring.support].
    apply foldM_ext. intros. apply exact_dict_add.
Qed.

(** With exact rationals for scores, [Scoring.calculate_recommendations]
    returns what the analyser stores. *)
Lemma exact_calculate_recommendations self onehot rule_table :
  onehot_df self = Some onehot -> rules self = Some rule_table ->
  match calculate_recommendations self with
  | Ok self' =>
      Scoring.calculate_recommendations Scoring.exact onehot
        (map in_exact rule_table)
      = match recommended_numbers self' with
        | Some recommended => Ok recommended
        | None => Err (Raised AttributeError)
        end
  | Err e =>
      Scoring.calculate_recommendations Scoring.exact onehot
        (map in_exact rule_table) = Err e
  end.
Proof.
  intros Ho Hr. unfold calculate_recommendations, Scoring.calculate_recommendations.
  rewrite Ho, Hr, exact_compute_number_scores.
  destruct (compute_number_scores onehot rule_table) as [d|e]; cbn [bind];
    [|reflexivity].
  cbn [recommended_numbers]. now rewrite exact_sorted_reverse.
Qed.

(** ** Rounding *)

(** The last place of the recommendation can be decided by rounding.  On
    [Examples.fifteen_draws], run with [min_support = 1] and
    [min_confidence = 2] (no rule), the numbers 1 and 2 have the same exact
    final score, 1/10; in binary64 the score of 1, (5/15) x 0.3 + 0, is below
    the score of 2, (2/15) x 0.3 + (2/10) x 0.3.  Exact scores recommend
    3..16 and then 1; the floats of the source recommend 3..16 and then 2. *)
Theorem rounding_decides_the_last_place :
  forallb valid_draw Examples.fifteen_draws = true
  /\ exists final onehot recommended recommended_binary64,
       run (Examples.csv_holding Examples.fifteen_draws)
           Examples.apriori_at_full_support
           Examples.association_rules_at_full_support "lotofacil.csv" 1 2
       = Ok final
       /\ onehot_df final = Some onehot
       /\ rules final = Some []
       /\ (final_score onehot [] 1 == 1 # 10)%Q
       /\ (final_score onehot [] 2 == 1 # 10)%Q
       /\ Scoring.lt Scoring.binary64
            (final_score_in Scoring.binary64 onehot [] 1)
            (final_score_in Scoring.binary64 onehot [] 2) = true
       /\ recommended_numbers final = Some recommended
       /\ map fst recommended
          = [3; 4; 5; 6; 7; 8; 9; 10; 11; 12; 13; 14; 15; 16; 1]
       /\ Scoring.calculate_recommendations Scoring.binary64 onehot []
          = Ok recommended_binary64
       /\ map fst recommended_binary64
          = [3; 4; 5; 6; 7; 8; 9; 10; 11; 12; 13; 14; 15; 16; 2].
Proof.
  split; [vm_compute; reflexivity|].
  exists (match run (Examples.csv_holding Examples.fifteen_draws)
                   Examples.apriori_at_full_support
                   Examples.association_rules_at_full_support
                   "lotofacil.csv" 1 2 with
          | Ok final => final
          | Err _ => Examples.fresh_analyzer
          end).
  exists (match Transform.create_lotofacil_onehot
                  (Examples.csv_holding Examples.fifteen_draws)
                  "lotofacil.csv" with
          | Ok onehot => onehot
          | Err _ => []
          end).
  exists (map (fun n => (n, 9000 # 15000))
              [3; 4; 5; 6; 7; 8; 9; 10; 11; 12; 13; 14; 15; 16]
          ++ [(1, 1500 # 15000)]).
  exists (match Scoring.calculate_recommendations Scoring.binary64
                  (match Transform.create_lotofacil_onehot
                           (Examples.csv_holding Examples.fifteen_draws)
                           "lotofacil.csv" with
                   | Ok onehot => onehot
                   | Err _ => []
                   end) [] with
          | Ok recommended => recommended
          | Err _ => []
          end).
  repeat (split; [vm_compute; reflexivity|]).
  vm_compute; reflexivity.
Qed.

(** ** Parity, sum and quadrants of each draw *)

Lemma wrap_int64_id v : int64 v = true -> wrap_int64 v = v.
Proof.
  unfold int64, wrap_int64. intros H.
  change (2 ^ 63) with 9223372036854775808 in *.
  change (2 ^ 64) with 18446744073709551616.
  rewrite Z.mod_small by lia. lia.
Qed.

Lemma fold_wrap_exact numeros : forall acc,
  sum_fits_int64 acc numeros = true ->
  fold_left (fun soma n => wrap_int64 (soma + n)) numeros acc
  = acc + fold_right Z.add 0 numeros.
Proof.
  induction numeros as [|n numeros IH]; intros acc H; cbn [fold_left fold_right].
  - lia.
  - cbn [sum_fits_int64] in H. apply andb_true_iff in H. destruct H as [Hn H].
    rewrite (wrap_int64_id _ Hn), (IH _ H). lia.
Qed.

(** Without overflow the sum is the sum of the integers. *)
Lemma row_soma_exact numeros :
  sum_fits_int64 0 numeros = true -> row_soma numeros = fold_right Z.add 0 numeros.
Proof. intros H. unfold row_soma. now rewrite fold_wrap_exact. Qed.

Lemma small_sum_fits numeros : forall acc,
  forallb in_range numeros = true ->
  0 <= acc -> acc + 25 * Z.of_nat (length numeros) < 2 ^ 63 ->
  sum_fits_int64 acc numeros = true.
Proof.
  induction numeros as [|n numeros IH]; intros acc Hr Hacc Hb; [reflexivity|].
  cbn [forallb] in Hr. apply andb_true_iff in Hr. destruct Hr as [Hn Hr].
  unfold in_range in Hn. cbn [length] in Hb.
  change (2 ^ 63) with 9223372036854775808 in Hb.
  cbn [sum_fits_int64]. apply andb_true_iff. split.
  - unfold int64. change (2 ^ 63) with 9223372036854775808. lia.
  - apply IH; [exact Hr|lia|].
    change (2 ^ 63) with 9223372036854775808. lia.
Qed.

Lemma analyze_rows_lists rows : forall acc,
  fold_left (fun results numeros =>
               let pares := row_pares numeros in
               {| pares_impares :=
                    pares_impares results ++ [(pares, 15 - pares)];
                  soma_total := soma_total results ++ [row_soma numeros];
                  quadrantes :=
                    quadrantes results ++ [row_quadrantes numeros] |})
            rows acc
  = {| pares_impares :=
         pares_impares acc
         ++ map (fun numeros => (row_pares numeros, 15 - row_pares numeros))
                rows;
       soma_total := soma_total acc ++ map row_soma rows;
       quadrantes := quadrantes acc ++ map row_quadrantes rows |}.
Proof.
  induction rows as [|numeros rows IH]; intros acc; cbn [fold_left map].
  - rewrite !app_nil_r. now destruct acc.
  - rewrite IH. cbn [pares_impares soma_total quadrantes].
    now rewrite <- !app_assoc.
Qed.

Lemma row_pares_counts_evens numeros :
  row_pares numeros = Z.of_nat (length (filter Z.even numeros)).
Proof.
  unfold row_pares. induction numeros as [|n numeros IH]; [reflexivity|].
  cbn [filter]. rewrite (Zmod_even n).
  destruct (Z.even n); cbn [Z.eqb map fold_right length].
  - rewrite IH. lia.
  - exact IH.
Qed.

Lemma evens_and_odds numeros :
  (length (filter Z.even numeros) + length (filter Z.odd numeros)
   = length numeros)%nat.
Proof.
  induction numeros as [|n numeros IH]; [reflexivity|].
  cbn [filter length]. rewrite <- (Z.negb_even n).
  destruct (Z.even n); cbn [negb length]; lia.
Qed.

(** On a table of 64-bit integers in which no row sum overflows, the
    statistics lists hold one entry per draw, in draw order, each computed
    from that draw alone: the number of even values paired with 15 minus that
    number, and the sum of the values.  The second component is the number
    of odd values exactly for the draws of 15 values. *)
Theorem parity_and_sum_per_draw (self : LotofacilAnalyzer) (rows : DataFrame) :
  df self = Some rows ->
  int64_table rows = true ->
  forallb (sum_fits_int64 0) rows = true ->
  exists results,
    analyze_number_patterns self = Ok results
    /\ pares_impares results
       = map (fun numeros =>
                (Z.of_nat (length (filter Z.even numeros)),
                 15 - Z.of_nat (length (filter Z.even numeros)))) rows
    /\ soma_total results = map (fun numeros => fold_right Z.add 0 numeros) rows
    /\ length (quadrantes results) = length rows
    /\ forall numeros, In numeros rows ->
         (15 - Z.of_nat (length (filter Z.even numeros))
          = Z.of_nat (length (filter Z.odd numeros))
          <-> length numeros = 15%nat).
Proof.
  intros Hdf _ Hsum. unfold analyze_number_patterns. rewrite Hdf.
  eexists. split; [reflexivity|].
  unfold analyze_rows. rewrite analyze_rows_lists.
  cbn [pares_impares soma_total quadrantes app].
  split; [|split; [|split]].
  - apply map_ext. intros numeros. now rewrite row_pares_counts_evens.
  - apply map_ext_in. intros numeros Hin. apply row_soma_exact.
    rewrite forallb_forall in Hsum. now apply Hsum.
  - apply length_map.
  - intros numeros _. pose proof (evens_and_odds numeros). lia.
Qed.

Lemma parity_and_sum_per_draw_witness :
  exists results,
    analyze_number_patterns (Examples.scored_two_draws []) = Ok results
    /\ pares_impares results
       = map (fun numeros =>
                (Z.of_nat (length (filter Z.even numeros)),
                 15 - Z.of_nat (length (filter Z.even numeros))))
             Examples.two_draws
    /\ soma_total results
       = map (fun numeros => fold_right Z.add 0 numeros) Examples.two_draws
    /\ length (quadrantes results) = length Examples.two_draws
    /\ forall numeros, In numeros Examples.two_draws ->
         (15 - Z.of_nat (length (filter Z.even numeros))
          = Z.of_nat (length (filter Z.odd numeros))
          <-> length numeros = 15%nat).
Proof.
  apply (parity_and_sum_per_draw (Examples.scored_two_draws [])
           Examples.two_draws);
    reflexivity.
Defined.

Lemma quadrant_index_cases numeros :
  map (fun q =>
         Z.of_nat (length (filter (fun n => (quadrant_index n =? q)%nat)
                                  numeros)))
      [0; 1; 2; 3]%nat
  = [ Z.of_nat (length (filter (fun n => n <=? 6) numeros));
      Z.of_nat (length (filter (fun n => (6 <? n) && (n <=? 12)) numeros));
      Z.of_nat (length (filter (fun n => (12 <? n) && (n <=? 18)) numeros));
      Z.of_nat (length (filter (fun n => 18 <? n) numeros)) ].
Proof.
  cbn [map].
  apply four_cells; do 2 f_equal; apply filter_ext; intros n;
    unfold quadrant_index;
    destruct (Z.leb_spec n 6); destruct (Z.leb_spec n 12);
    destruct (Z.leb_spec n 18); destruct (Z.ltb_spec 6 n);
    destruct (Z.ltb_spec 12 n); destruct (Z.ltb_spec 18 n);
    cbn; try reflexivity; lia.
Qed.

Lemma four_way_split numeros :
  Z.of_nat (length (filter (fun n => n <=? 6) numeros))
  + (Z.of_nat (length (filter (fun n => (6 <? n) && (n <=? 12)) numeros))
     + (Z.of_nat (length (filter (fun n => (12 <? n) && (n <=? 18)) numeros))
        + (Z.of_nat (length (filter (fun n => 18 <? n) numeros)) + 0)))
  = Z.of_nat (length numeros).
Proof.
  induction numeros as [|n numeros IH]; [reflexivity|].
  cbn [filter length].
  destruct (Z.leb_spec n 6); destruct (Z.leb_spec n 12);
    destruct (Z.leb_spec n 18); destruct (Z.ltb_spec 6 n);
    destruct (Z.ltb_spec 12 n); destruct (Z.ltb_spec 18 n);
    cbn [andb length]; lia.
Qed.

(** Whatever the 64-bit integers of a draw, every one of them is counted in
    exactly one quadrant: values up to 6 (0 and negative ones included) in
    the first, 7..12 in the second, 13..18 in the third, and everything
    above 18 (values above 25 included) in the fourth; the four counts of a
    draw add up to the number of its values. *)
Theorem quadrants_count_every_value
  (self : LotofacilAnalyzer) (rows : DataFrame) :
  df self = Some rows ->
  int64_table rows = true ->
  exists results,
    analyze_number_patterns self = Ok results
    /\ quadrantes results
       = map (fun numeros =>
                [ Z.of_nat (length (filter (fun n => n <=? 6) numeros));
                  Z.of_nat (length (filter (fun n => (6 <? n) && (n <=? 12))
                                           numeros));
                  Z.of_nat (length (filter (fun n => (12 <? n) && (n <=? 18))
                                           numeros));
                  Z.of_nat (length (filter (fun n => 18 <? n) numeros)) ])
             rows
    /\ Forall2 (fun numeros counts =>
                  fold_right Z.add 0 counts = Z.of_nat (length numeros))
               rows (quadrantes results).
Proof.
  intros Hdf _. unfold analyze_number_patterns. rewrite Hdf.
  eexists. split; [reflexivity|].
  unfold analyze_rows. rewrite analyze_rows_lists. cbn [quadrantes app].
  assert (Hrow : forall numeros,
            row_quadrantes numeros
            = [ Z.of_nat (length (filter (fun n => n <=? 6) numeros));
                Z.of_nat (length (filter (fun n => (6 <? n) && (n <=? 12))
                                         numeros));
                Z.of_nat (length (filter (fun n => (12 <? n) && (n <=? 18))
                                         numeros));
                Z.of_nat (length (filter (fun n => 18 <? n) numeros)) ]).
  { intros numeros. unfold row_quadrantes.
    change (repeat 0 4) with [0; 0; 0; 0].
    rewrite quadrant_loop. cbn [map Z.add].
    exact (quadrant_index_cases numeros). }
  split.
  - apply map_ext. exact Hrow.
  - clear Hdf. induction rows as [|numeros rows IH]; cbn [map]; constructor.
    + rewrite Hrow. cbn [fold_right]. apply four_way_split.
    + apply IH.
Qed.

Lemma quadrants_count_every_value_witness :
  exists results,
    analyze_number_patterns
      (mkAnalyzer "lotofacil.csv" default_min_support default_min_confidence
                  (Some [Examples.draw_with_26]) None None None None)
    = Ok results
    /\ quadrantes results
       = map (fun numeros =>
                [ Z.of_nat (length (filter (fun n => n <=? 6) numeros));
                  Z.of_nat (length (filter (fun n => (6 <? n) && (n <=? 12))
                                           numeros));
                  Z.of_nat (length (filter (fun n => (12 <? n) && (n <=? 18))
                                           numeros));
                  Z.of_nat (length (filter (fun n => 18 <? n) numeros)) ])
             [Examples.draw_with_26]
    /\ Forall2 (fun numeros counts =>
                  fold_right Z.add 0 counts = Z.of_nat (length numeros))
               [Examples.draw_with_26] (quadrantes results).
Proof.
  apply (quadrants_count_every_value
           (mkAnalyzer "lotofacil.csv" default_min_support
                       default_min_confidence
                       (Some [Examples.draw_with_26]) None None None None)
           [Examples.draw_with_26]);
    reflexivity.
Defined.

(** ** The report: recommended numbers and most common parity split *)

Import Report.

Lemma insert_asc_perm x l : Permutation (insert_asc x l) (x :: l).
Proof.
  induction l as [|y l IH]; simpl; [reflexivity|].
  destruct (x <=? y); [reflexivity|].
  rewrite IH. apply perm_swap.
Qed.

Lemma sorted_perm l : Permutation (sorted l) l.
Proof.
  induction l as [|x l IH]; simpl; [reflexivity|].
  rewrite insert_asc_perm. now constructor.
Qed.

Lemma insert_asc_sorted x l :
  StronglySorted Z.le l -> StronglySorted Z.le (insert_asc x l).
Proof.
  induction l as [|y l IH]; intros Hs; simpl.
  - repeat constructor.
  - inversion Hs as [|? ? Hs' Hy]; subst.
    destruct (Z.leb_spec x y) as [Hle|Hlt].
    + constructor; [exact Hs|]. constructor; [exact Hle|].
      rewrite Forall_forall in *. intros z Hz. specialize (Hy z Hz). lia.
    + constructor; [now apply IH|].
      rewrite Forall_forall in *. intros z Hz.
      apply (Permutation_in _ (insert_asc_perm x l)) in Hz.
      destruct Hz as [<-|Hz]; [lia|now apply Hy].
Qed.

Lemma sorted_sorted l : StronglySorted Z.le (sorted l).
Proof.
  induction l as [|x l IH]; simpl; [constructor|].
  now apply insert_asc_sorted.
Qed.

Lemma split_eqb_eq a b : split_eqb a b = true <-> a = b.
Proof.
  unfold split_eqb. destruct a as [a1 a2], b as [b1 b2]. cbn [fst snd].
  rewrite andb_true_iff, !Z.eqb_eq. split.
  - intros [-> ->]. reflexivity.
  - intros H. inversion H. auto.
Qed.

Lemma split_eqb_refl a : split_eqb a a = true.
Proof. now apply split_eqb_eq. Qed.

Lemma counter_lookup_update counts item k :
  counter_lookup (counter_update counts item) k
  = counter_lookup counts k + (if split_eqb item k then 1 else 0).
Proof.
  induction counts as [|[k' n] counts IH]; cbn [counter_update counter_lookup].
  - destruct (split_eqb item k); lia.
  - destruct (split_eqb k' item) eqn:E; cbn [counter_lookup].
    + apply split_eqb_eq in E. subst k'.
      destruct (split_eqb item k); lia.
    + destruct (split_eqb k' k) eqn:E'; [|exact IH].
      apply split_eqb_eq in E'. subst k'.
      destruct (split_eqb item k) eqn:E''; [|lia].
      apply split_eqb_eq in E''. subst item.
      rewrite split_eqb_refl in E. discriminate.
Qed.

Lemma counter_lookup_fold items : forall counts k,
  counter_lookup (fold_left counter_update items counts) k
  = counter_lookup counts k + occurrences k items.
Proof.
  unfold occurrences.
  induction items as [|item items IH]; intros counts k; cbn [fold_left filter].
  - cbn. lia.
  - rewrite IH, counter_lookup_update.
    destruct (split_eqb item k); cbn [length]; lia.
Qed.

Lemma counter_update_keys counts item k :
  In k (map fst (counter_update counts item))
  <-> In k (map fst counts) \/ k = item.
Proof.
  induction counts as [|[k' n] counts IH]; cbn [counter_update map fst In].
  - intuition.
  - destruct (split_eqb k' item) eqn:E; cbn [map fst In].
    + apply split_eqb_eq in E. subst k'. intuition.
    + rewrite IH. intuition.
Qed.

Lemma counter_update_NoDup counts item :
  NoDup (map fst counts) -> NoDup (map fst (counter_update counts item)).
Proof.
  induction counts as [|[k' n] counts IH]; intros Hnd;
    cbn [counter_update map fst].
  - repeat constructor. intros [].
  - inversion Hnd as [|? ? Hk Hnd']; subst.
    destruct (split_eqb k' item) eqn:E; cbn [map fst].
    + constructor; assumption.
    + constructor; [|now apply IH].
      rewrite counter_update_keys. intros [H|H]; [contradiction|].
      subst item. rewrite split_eqb_refl in E. discriminate.
Qed.

Lemma Counter_invariant items : forall counts,
  NoDup (map fst counts) ->
  NoDup (map fst (fold_left counter_update items counts))
  /\ forall k, In k (map fst (fold_left counter_update items counts))
               <-> In k (map fst counts) \/ In k items.
Proof.
  induction items as [|item items IH]; intros counts Hnd; cbn [fold_left].
  - split; [exact Hnd|]. intros k. cbn. intuition.
  - destruct (IH (counter_update counts item)
                (counter_update_NoDup _ _ Hnd)) as [Hnd' Hkeys].
    split; [exact Hnd'|]. intros k. rewrite Hkeys, counter_update_keys.
    cbn [In]. intuition.
Qed.

Lemma counter_lookup_entry counts k n :
  NoDup (map fst counts) -> In (k, n) counts -> counter_lookup counts k = n.
Proof.
  induction counts as [|[k' n'] counts IH]; intros Hnd Hin; [destruct Hin|].
  inversion Hnd as [|? ? Hk Hnd']; subst. cbn [counter_lookup].
  destruct Hin as [Heq|Hin].
  - inversion Heq; subst. now rewrite split_eqb_refl.
  - destruct (split_eqb k' k) eqn:E; [|now apply IH].
    apply split_eqb_eq in E. subst k'.
    exfalso. apply Hk. apply in_map_iff. now exists (k, n).
Qed.

Lemma max_by_count_fold rest : forall first,
  In (fold_left (fun best x : (Z * Z) * Z =>
                   if snd best <? snd x then x else best) rest first)
     (first :: rest)
  /\ forall x, In x (first :: rest) ->
       snd x <= snd (fold_left (fun best x : (Z * Z) * Z =>
                                  if snd best <? snd x then x else best)
                               rest first).
Proof.
  induction rest as [|y rest IH]; intros first; cbn [fold_left].
  - split; [now left|]. intros x [<-|[]]. lia.
  - destruct (IH (if snd first <? snd y then y else first)) as [Hin Hmax].
    split.
    + destruct Hin as [Hin|Hin]; [|right; now right].
      rewrite <- Hin. destruct (snd first <? snd y); [right|]; now left.
    + intros x Hx.
      assert (Hstep : snd first <= snd (if snd first <? snd y then y else first)
                      /\ snd y <= snd (if snd first <? snd y then y else first)).
      { destruct (Z.ltb_spec (snd first) (snd y)); lia. }
      pose proof (Hmax _ (or_introl eq_refl)) as Hbest.
      destruct Hx as [<-|[<-|Hx]]; [lia|lia|].
      apply Hmax. now right.
Qed.

Lemma pares_impares_of_rows (self : LotofacilAnalyzer) (rows : DataFrame) :
  df self = Some rows ->
  exists patterns,
    analyze_number_patterns self = Ok patterns
    /\ pares_impares patterns = map parity_split rows.
Proof.
  intros Hdf. unfold analyze_number_patterns. rewrite Hdf.
  eexists. split; [reflexivity|].
  unfold analyze_rows. rewrite analyze_rows_lists. cbn [pares_impares app].
  apply map_ext. intros numeros. unfold parity_split.
  now rewrite row_pares_counts_evens.
Qed.

Lemma counter_lookup_cases counts k :
  counter_lookup counts k = 0
  \/ exists n, In (k, n) counts /\ counter_lookup counts k = n.
Proof.
  induction counts as [|[k' n] counts IH]; cbn [counter_lookup]; [now left|].
  destruct (split_eqb k' k) eqn:E.
  - apply split_eqb_eq in E. subst k'. right. exists n. split; [now left|auto].
  - destruct IH as [IH|[m [Hin Hm]]]; [now left|].
    right. exists m. split; [now right|exact Hm].
Qed.

Lemma Counter_nonempty splits :
  splits <> [] -> exists most, max_by_count (Counter splits) = Ok most.
Proof.
  intros Hne.
  destruct (Counter_invariant splits [] (NoDup_nil _)) as [_ Hkeys].
  fold (Counter splits) in Hkeys.
  destruct (Counter splits) as [|first rest].
  - exfalso. destruct splits as [|s0 splits]; [contradiction|].
    destruct (Hkeys s0) as [_ Hk]. destruct Hk. right. now left.
  - eexists. reflexivity.
Qed.

(** The recommended numbers are reported in ascending order: for a history
    with at least one draw and a recommendation set, the head of the report
    is computed, it counts the draws, and its list of numbers is a
    rearrangement of the recommended numbers in which no number exceeds a
    later one. *)
Theorem report_numbers_are_ascending
  (self : LotofacilAnalyzer) (rows : DataFrame) (recommended : list (Z * Q)) :
  df self = Some rows ->
  rows <> [] ->
  recommended_numbers self = Some recommended ->
  exists head,
    comprehensive_analysis_head self = Ok head
    /\ total_de_jogos head = length rows
    /\ Permutation (numbers_only head) (map fst recommended)
    /\ StronglySorted Z.le (numbers_only head).
Proof.
  intros Hdf Hne Hrec.
  destruct (pares_impares_of_rows self rows Hdf) as [patterns [Hp Hsplits]].
  unfold comprehensive_analysis_head. rewrite Hdf, Hrec, Hp. cbn [bind].
  rewrite Hsplits.
  destruct (Counter_nonempty (map parity_split rows)) as [most Hmost].
  { destruct rows; [contradiction|discriminate]. }
  rewrite Hmost. cbn [bind]. eexists. split; [reflexivity|].
  cbn [total_de_jogos numbers_only].
  split; [reflexivity|]. split; [apply sorted_perm|apply sorted_sorted].
Qed.

(** The most common parity split.  For a history without draws the report
    stops with ValueError ([max] of an empty sequence).  Otherwise the
    reported split is the split of some draw, its reported count is the
    number of draws with that split, and no split occurs in more draws. *)
Theorem report_most_common_parity_split
  (self : LotofacilAnalyzer) (rows : DataFrame) (recommended : list (Z * Q)) :
  df self = Some rows ->
  recommended_numbers self = Some recommended ->
  (rows = [] -> comprehensive_analysis_head self = Err (Raised ValueError))
  /\ (rows <> [] ->
      exists head,
        comprehensive_analysis_head self = Ok head
        /\ In (fst (most_common_par_impar head)) (map parity_split rows)
        /\ snd (most_common_par_impar head)
           = occurrences (fst (most_common_par_impar head))
                         (map parity_split rows)
        /\ forall split,
             occurrences split (map parity_split rows)
             <= snd (most_common_par_impar head)).
Proof.
  intros Hdf Hrec.
  destruct (pares_impares_of_rows self rows Hdf) as [patterns [Hp Hsplits]].
  unfold comprehensive_analysis_head. rewrite Hdf, Hrec, Hp. cbn [bind].
  rewrite Hsplits. split.
  - intros ->. reflexivity.
  - intros Hne.
    remember (map parity_split rows) as splits eqn:Hs.
    assert (Hsne : splits <> []).
    { subst splits. destruct rows; [contradiction|discriminate]. }
    clear Hs Hsplits Hp Hdf Hne.
    destruct (Counter_invariant splits [] (NoDup_nil _)) as [Hnd Hkeys].
    fold (Counter splits) in Hnd, Hkeys.
    assert (Hlookup : forall k,
              counter_lookup (Counter splits) k = occurrences k splits).
    { intros k. unfold Counter. now rewrite counter_lookup_fold. }
    destruct (Counter splits) as [|first rest] eqn:Hc.
    + exfalso. destruct splits as [|s0 splits]; [contradiction|].
      destruct (Hkeys s0) as [_ Hk]. destruct Hk. right. now left.
    + cbn [max_by_count bind].
      destruct (max_by_count_fold rest first) as [Hin Hmax].
      remember (fold_left (fun best x : (Z * Z) * Z =>
                             if snd best <? snd x then x else best)
                          rest first) as best eqn:Hb.
      clear Hb. eexists. split; [reflexivity|].
      cbn [most_common_par_impar].
      assert (Hbest : snd best = occurrences (fst best) splits).
      { rewrite <- Hlookup. symmetry. apply counter_lookup_entry; [exact Hnd|].
        now destruct best. }
      split; [|split].
      * destruct (Hkeys (fst best)) as [Hk _].
        destruct Hk as [[]|Hk]; [now apply in_map|exact Hk].
      * exact Hbest.
      * intros split. rewrite <- Hlookup.
        destruct (counter_lookup_cases (first :: rest) split)
          as [H0|[n [Hn Hl]]].
        -- rewrite H0, Hbest. unfold occurrences. lia.
        -- rewrite Hl. apply (Hmax (split, n) Hn).
Qed.

Lemma report_most_common_parity_split_witness :
  (Examples.two_draws = [] ->
   comprehensive_analysis_head (Examples.reported_two_draws)
   = Err (Raised ValueError))
  /\ (Examples.two_draws <> [] ->
      exists head,
        comprehensive_analysis_head (Examples.reported_two_draws) = Ok head
        /\ In (fst (most_common_par_impar head))
              (map parity_split Examples.two_draws)
        /\ snd (most_common_par_impar head)
           = occurrences (fst (most_common_par_impar head))
                         (map parity_split Examples.two_draws)
        /\ forall split,
             occurrences split (map parity_split Examples.two_draws)
             <= snd (most_common_par_impar head)).
Proof.
  apply (report_most_common_parity_split Examples.reported_two_draws
           Examples.two_draws Examples.recommended_example);
    reflexivity.
Defined.

Lemma report_numbers_are_ascending_witness :
  exists head,
    comprehensive_analysis_head Examples.reported_two_draws = Ok head
    /\ total_de_jogos head = length Examples.two_draws
    /\ Permutation (numbers_only head)
                   (map fst Examples.recommended_example)
    /\ StronglySorted Z.le (numbers_only head).
Proof.
  apply (report_numbers_are_ascending Examples.reported_two_draws
           Examples.two_draws Examples.recommended_example);
    [reflexivity | discriminate | reflexivity].
Defined.

(** ** The whole run *)

Lemma create_is_encode_rows read_csv arquivo_csv history onehot :
  read_csv arquivo_csv = Ok history ->
  Transform.create_lotofacil_onehot read_csv arquivo_csv = Ok onehot ->
  Transform.encode_rows 0 history (zeros (length history) 25) = Ok onehot.
Proof.
  intros Hcsv. unfold Transform.create_lotofacil_onehot. rewrite Hcsv.
  cbn [from_library bind]. auto.
Qed.

(** Construct, load, mine and score compose: when the file holds a table of
    64-bit integers that is encoded (to the matrix [create_lotofacil_onehot]
    gives for the same file), both library calls return, and the rules are
    over the 25 columns, the run ends with an analyser that holds the draws,
    the matrix, the itemsets, the rules and a recommendation of 15 entries,
    its file name and thresholds unchanged. *)
Theorem run_succeeds
  (read_csv : string -> result builtin_exception DataFrame)
  (apriori : Matrix -> Q -> nat -> result builtin_exception (list Itemset))
  (association_rules :
     list Itemset -> Q -> result builtin_exception (list Rule))
  (arquivo_csv : string) (s c : Q) (history : DataFrame) (onehot : Matrix)
  (itemsets : list Itemset) (rule_table : list Rule) :
  read_csv arquivo_csv = Ok history ->
  int64_table history = true ->
  Transform.create_lotofacil_onehot read_csv arquivo_csv = Ok onehot ->
  apriori onehot s 6%nat = Ok itemsets ->
  association_rules itemsets c = Ok rule_table ->
  forallb rule_in_columns rule_table = true ->
  exists final recommended,
    run read_csv apriori association_rules arquivo_csv s c = Ok final
    /\ csv_file final = arquivo_csv
    /\ min_support final = s
    /\ min_confidence final = c
    /\ df final = Some history
    /\ onehot_df final = Some onehot
    /\ frequent_itemsets final = Some itemsets
    /\ rules final = Some rule_table
    /\ recommended_numbers final = Some recommended
    /\ length recommended = 15%nat.
Proof.
  intros Hcsv _ Hcreate Ha Hr Hcols.
  pose proof (create_is_encode_rows _ _ _ _ Hcsv Hcreate) as Henc.
  unfold run, __init__. cbn [bind].
  unfold load_and_prepare_data. cbn [csv_file]. rewrite Hcsv.
  cbn [from_library bind]. rewrite Henc. cbn [bind].
  unfold analyze_patterns. cbn [onehot_df min_support min_confidence].
  rewrite Ha. cbn [from_library bind]. rewrite Hr. cbn [from_library bind].
  unfold calculate_recommendations. cbn [onehot_df rules].
  rewrite (compute_number_scores_closed onehot rule_table Hcols). cbn [bind].
  eexists. eexists. split; [reflexivity|].
  cbn [csv_file min_support min_confidence df onehot_df frequent_itemsets
       rules recommended_numbers].
  repeat (split; [reflexivity|]).
  rewrite length_firstn, length_ranking. reflexivity.
Qed.

Lemma run_succeeds_witness :
  exists final recommended,
    run (Examples.csv_holding Examples.two_draws)
        Examples.apriori_at_full_support
        Examples.association_rules_at_full_support "lotofacil.csv" 1 1
    = Ok final
    /\ csv_file final = "lotofacil.csv"%string
    /\ min_support final = 1%Q
    /\ min_confidence final = 1%Q
    /\ df final = Some Examples.two_draws
    /\ onehot_df final = Some Examples.two_draws_onehot
    /\ frequent_itemsets final = Some Examples.two_draws_itemsets
    /\ rules final = Some Examples.two_draws_rules
    /\ recommended_numbers final = Some recommended
    /\ length recommended = 15%nat.
Proof.
  apply (run_succeeds (Examples.csv_holding Examples.two_draws)
           Examples.apriori_at_full_support
           Examples.association_rules_at_full_support "lotofacil.csv"
           1 1 Examples.two_draws Examples.two_draws_onehot
           Examples.two_draws_itemsets Examples.two_draws_rules);
    [reflexivity | reflexivity | reflexivity | reflexivity | reflexivity
    | vm_compute; reflexivity].
Defined.

(** On a file that, when it can be read, holds a table of 64-bit integers,
    a run can only fail in five ways, in this order: the file cannot be read
    (pandas' exception), a value of the table cannot be indexed (IndexError),
    the miner fails, the rule generator fails (the library's exception), or a
    rule holds a label that is not a column (KeyError).  No method of the run
    meets an attribute that is still [None]. *)
Theorem run_fails_in_five_ways
  (read_csv : string -> result builtin_exception DataFrame)
  (apriori : Matrix -> Q -> nat -> result builtin_exception (list Itemset))
  (association_rules :
     list Itemset -> Q -> result builtin_exception (list Rule))
  (arquivo_csv : string) (s c : Q) (e : exn) :
  (forall history, read_csv arquivo_csv = Ok history ->
     int64_table history = true) ->
  run read_csv apriori association_rules arquivo_csv s c = Err e ->
  (exists b, read_csv arquivo_csv = Err b /\ e = Raised b)
  \/ (exists history,
        read_csv arquivo_csv = Ok history
        /\ history_indexable history = false /\ e = Raised IndexError)
  \/ (exists onehot b,
        Transform.create_lotofacil_onehot read_csv arquivo_csv = Ok onehot
        /\ apriori onehot s 6%nat = Err b /\ e = Raised b)
  \/ (exists onehot itemsets b,
        Transform.create_lotofacil_onehot read_csv arquivo_csv = Ok onehot
        /\ apriori onehot s 6%nat = Ok itemsets
        /\ association_rules itemsets c = Err b /\ e = Raised b)
  \/ (exists onehot itemsets rule_table,
        Transform.create_lotofacil_onehot read_csv arquivo_csv = Ok onehot
        /\ apriori onehot s 6%nat = Ok itemsets
        /\ association_rules itemsets c = Ok rule_table
        /\ forallb rule_in_columns rule_table = false
        /\ e = Raised KeyError).
Proof.
  intros _.
  unfold run, __init__. cbn [bind].
  unfold load_and_prepare_data, Transform.create_lotofacil_onehot.
  cbn [csv_file].
  destruct (read_csv arquivo_csv) as [history|b] eqn:Hcsv;
    cbn [from_library bind].
  2:{ intros H. inversion H; subst. left. exists b. auto. }
  rewrite encode_rows_closed.
  destruct (mapM_encode_row_closed history) as [Hok Herr].
  destruct (mapM encode_row history) as [onehot|e'] eqn:Henc; cbn [bind].
  2:{ intros H. inversion H; subst. right; left. exists history.
      cbn [is_ok] in Hok. symmetry in Hok. specialize (Herr Hok).
      inversion Herr; subst. auto. }
  unfold analyze_patterns. cbn [onehot_df min_support min_confidence].
  destruct (apriori onehot s 6%nat) as [itemsets|b] eqn:Ha;
    cbn [from_library bind].
  2:{ intros H. inversion H; subst. right; right; left.
      exists onehot, b. auto. }
  destruct (association_rules itemsets c) as [rule_table|b] eqn:Hr;
    cbn [from_library bind].
  2:{ intros H. inversion H; subst. right; right; right; left.
      exists onehot, itemsets, b. auto. }
  unfold calculate_recommendations. cbn [onehot_df rules].
  rewrite compute_number_scores_keys.
  destruct (forallb rule_in_columns rule_table) eqn:Hcols; cbn [bind].
  - discriminate.
  - intros H. inversion H; subst. right; right; right; right.
    exists onehot, itemsets, rule_table. auto.
Qed.

Lemma run_fails_in_five_ways_witness :
  (exists b, Examples.csv_holding [Examples.draw_with_26] "lotofacil.csv"
             = Err b /\ Raised IndexError = Raised b)
  \/ (exists history,
        Examples.csv_holding [Examples.draw_with_26] "lotofacil.csv"
        = Ok history
        /\ history_indexable history = false
        /\ Raised IndexError = Raised IndexError)
  \/ (exists onehot b,
        Transform.create_lotofacil_onehot
          (Examples.csv_holding [Examples.draw_with_26]) "lotofacil.csv"
        = Ok onehot
        /\ Examples.apriori_at_full_support onehot 1 6%nat = Err b
        /\ Raised IndexError = Raised b)
  \/ (exists onehot itemsets b,
        Transform.create_lotofacil_onehot
          (Examples.csv_holding [Examples.draw_with_26]) "lotofacil.csv"
        = Ok onehot
        /\ Examples.apriori_at_full_support onehot 1 6%nat = Ok itemsets
        /\ Examples.association_rules_at_full_support itemsets 1 = Err b
        /\ Raised IndexError = Raised b)
  \/ (exists onehot itemsets rule_table,
        Transform.create_lotofacil_onehot
          (Examples.csv_holding [Examples.draw_with_26]) "lotofacil.csv"
        = Ok onehot
        /\ Examples.apriori_at_full_support onehot 1 6%nat = Ok itemsets
        /\ Examples.association_rules_at_full_support itemsets 1 = Ok rule_table
        /\ forallb rule_in_columns rule_table = false
        /\ Raised IndexError = Raised KeyError).
Proof.
  apply (run_fails_in_five_ways
           (Examples.csv_holding [Examples.draw_with_26])
           Examples.apriori_at_full_support Examples.association_rules_at_full_support "lotofacil.csv"
           1 1 (Raised IndexError)).
  - intros history H. injection H as <-. reflexivity.
  - reflexivity.
Defined.

(** ** Bounds of the statistics of valid draws *)

Lemma exists_maximum (l : list Z) :
  l <> [] -> exists m, In m l /\ forall v, In v l -> v <= m.
Proof.
  induction l as [|x l IH]; intros Hne; [contradiction|].
  destruct l as [|y l].
  - exists x. split; [now left|]. intros v [<-|[]]. lia.
  - destruct IH as [m [Hm Hmax]]; [discriminate|].
    destruct (Z.le_gt_cases x m).
    + exists m. split; [now right|]. intros v [<-|Hv]; [lia|now apply Hmax].
    + exists x. split; [now left|]. intros v [<-|Hv]; [lia|].
      specialize (Hmax v Hv). lia.
Qed.

Lemma distinct_positive_bounded (l : list Z) m :
  NoDup l -> 0 <= m -> (forall v, In v l -> 1 <= v <= m) ->
  Z.of_nat (length l) <= m.
Proof.
  intros Hnd Hm Hr.
  assert (Hincl : incl l (map (fun i => Z.of_nat i + 1) (seq 0 (Z.to_nat m)))).
  { intros v Hv. specialize (Hr v Hv). apply in_map_iff.
    exists (Z.to_nat (v - 1)). split; [lia|]. apply in_seq. lia. }
  pose proof (NoDup_incl_length Hnd Hincl) as Hlen.
  rewrite length_map, length_seq in Hlen. lia.
Qed.

Lemma sum_app_Z (l1 l2 : list Z) :
  fold_right Z.add 0 (l1 ++ l2)
  = fold_right Z.add 0 l1 + fold_right Z.add 0 l2.
Proof. induction l1 as [|x l1 IH]; cbn [app fold_right]; lia. Qed.

(** Distinct positive integers add up to at least 1 + 2 + ... + k. *)
Lemma sum_of_distinct_positives k : forall l,
  length l = k -> NoDup l -> (forall v, In v l -> 1 <= v) ->
  Z.of_nat k * (Z.of_nat k + 1) <= 2 * fold_right Z.add 0 l.
Proof.
  induction k as [|k IH]; intros l Hlen Hnd Hpos.
  - destruct l; [cbn; lia|discriminate].
  - assert (Hne : l <> []) by (intros ->; discriminate).
    destruct (exists_maximum l Hne) as [m [Hm Hmax]].
    assert (Hbound : Z.of_nat (length l) <= m).
    { apply distinct_positive_bounded; [exact Hnd| |].
      - specialize (Hpos m Hm). lia.
      - intros v Hv. split; [now apply Hpos|now apply Hmax]. }
    destruct (in_split _ _ Hm) as [l1 [l2 Hl]]. subst l.
    pose proof (NoDup_remove_1 _ _ _ Hnd) as Hnd'.
    rewrite length_app in Hlen. cbn [length] in Hlen.
    assert (Hlen' : length (l1 ++ l2) = k) by (rewrite length_app; lia).
    assert (Hpos' : forall v, In v (l1 ++ l2) -> 1 <= v).
    { intros v Hv. apply Hpos. apply in_app_or in Hv. apply in_or_app.
      destruct Hv; [now left|right; now right]. }
    specialize (IH (l1 ++ l2) Hlen' Hnd' Hpos').
    rewrite sum_app_Z in *. cbn [fold_right].
    rewrite length_app in Hbound. cbn [length] in Hbound.
    nia.
Qed.

Lemma sum_reflected (l : list Z) :
  fold_right Z.add 0 (map (fun v => 26 - v) l)
  = 26 * Z.of_nat (length l) - fold_right Z.add 0 l.
Proof. induction l as [|x l IH]; cbn [map fold_right length]; lia. Qed.

Lemma valid_draw_props row :
  valid_draw row = true ->
  length row = 15%nat /\ NoDup row /\ forall v, In v row -> 1 <= v <= 25.
Proof.
  unfold valid_draw. intros H.
  apply andb_true_iff in H. destruct H as [H Hr].
  apply andb_true_iff in H. destruct H as [Hl Hnd].
  apply Nat.eqb_eq in Hl. apply NoDup_nodupb in Hnd.
  split; [exact Hl|]. split; [exact Hnd|].
  rewrite forallb_forall in Hr. intros v Hv. specialize (Hr v Hv).
  unfold in_range in Hr. lia.
Qed.

Lemma valid_draw_sum row :
  valid_draw row = true -> 120 <= fold_right Z.add 0 row <= 270.
Proof.
  intros Hv. destruct (valid_draw_props row Hv) as [Hl [Hnd Hr]].
  pose proof (sum_of_distinct_positives 15 row Hl Hnd
                (fun v Hin => proj1 (Hr v Hin))) as Hlow.
  assert (Hnd' : NoDup (map (fun v => 26 - v) row)).
  { apply Finite.Injective_map_NoDup; [|exact Hnd]. intros a b H. lia. }
  pose proof (sum_of_distinct_positives 15 (map (fun v => 26 - v) row)
                ltac:(now rewrite length_map) Hnd') as Hup.
  rewrite sum_reflected, Hl in Hup.
  assert (Hpos : forall v, In v (map (fun v => 26 - v) row) -> 1 <= v).
  { intros v Hin. apply in_map_iff in Hin. destruct Hin as [w [<- Hw]].
    specialize (Hr w Hw). lia. }
  specialize (Hup Hpos). lia.
Qed.

Lemma filter_within_keys (p : Z -> bool) row :
  NoDup row -> (forall v, In v row -> 1 <= v <= 25) ->
  (length (filter p row) <= length (filter p keys))%nat.
Proof.
  intros Hnd Hr. apply NoDup_incl_length; [now apply NoDup_filter|].
  intros v Hv. apply filter_In in Hv. destruct Hv as [Hv Hp].
  apply filter_In. split; [|exact Hp]. apply in_keys. now apply Hr.
Qed.

Lemma valid_draw_parity row :
  valid_draw row = true ->
  (2 <= length (filter Z.even row) <= 12)%nat.
Proof.
  intros Hv. destruct (valid_draw_props row Hv) as [Hl [Hnd Hr]].
  pose proof (filter_within_keys Z.even row Hnd Hr) as He.
  pose proof (filter_within_keys Z.odd row Hnd Hr) as Ho.
  pose proof (evens_and_odds row) as Hsum.
  change (length (filter Z.even keys)) with 12%nat in He.
  change (length (filter Z.odd keys)) with 13%nat in Ho.
  lia.
Qed.

(** For a history of valid draws (15 distinct numbers of 1..25) every
    reported sum lies between 120 and 270, every draw has between 2 and 12
    even numbers, and the two components of its parity split add up to 15. *)
Theorem valid_draw_statistics_are_bounded
  (self : LotofacilAnalyzer) (rows : DataFrame) :
  df self = Some rows ->
  forallb valid_draw rows = true ->
  exists results,
    analyze_number_patterns self = Ok results
    /\ Forall (fun soma => 120 <= soma <= 270) (soma_total results)
    /\ Forall (fun split => 2 <= fst split <= 12
                           /\ 3 <= snd split <= 13
                           /\ fst split + snd split = 15)
              (pares_impares results).
Proof.
  intros Hdf Hvalid. unfold analyze_number_patterns. rewrite Hdf.
  eexists. split; [reflexivity|].
  unfold analyze_rows. rewrite analyze_rows_lists.
  cbn [pares_impares soma_total app].
  rewrite forallb_forall in Hvalid. split.
  - apply Forall_forall. intros soma Hin. apply in_map_iff in Hin.
    destruct Hin as [row [<- Hrow]].
    destruct (valid_draw_facts row (Hvalid row Hrow)) as [Hl Hr].
    rewrite row_soma_exact.
    + apply valid_draw_sum. now apply Hvalid.
    + apply small_sum_fits; [exact Hr|lia|]. rewrite Hl. reflexivity.
  - apply Forall_forall. intros split Hin. apply in_map_iff in Hin.
    destruct Hin as [row [<- Hrow]]. cbn [fst snd].
    rewrite row_pares_counts_evens.
    pose proof (valid_draw_parity row (Hvalid row Hrow)). lia.
Qed.

Lemma valid_draw_statistics_are_bounded_witness :
  exists results,
    analyze_number_patterns (Examples.scored_two_draws []) = Ok results
    /\ Forall (fun soma => 120 <= soma <= 270) (soma_total results)
    /\ Forall (fun split => 2 <= fst split <= 12
                           /\ 3 <= snd split <= 13
                           /\ fst split + snd split = 15)
              (pares_impares results).
Proof.
  apply (valid_draw_statistics_are_bounded (Examples.scored_two_draws [])
           Examples.two_draws);
    reflexivity.
Defined.
